(** * voxler: the voxel object model of [voxler/voxels.py]

    A shallow embedding of the classes [Voxel], [DirectVoxel], [DirectCube]
    and [DirectSphere].  Every method of these classes is a short sequence of
    calls into the CAD host (the [adsk] API), so the development has three
    layers:

    - the host: its document, material libraries, components and bodies, as
      a record of plain data, together with the log of the API calls it has
      received;
    - Python: a voxel object as a record of attribute slots, and methods as
      computations in a state-and-exception monad over (object, host);
    - the classes, method by method, in the order of the source file.

    Python floats are IEEE 754 binary64 numbers and are modelled by Rocq's
    primitive floats; integers are [Z]; tuples are products. *)

From Stdlib Require Import ZArith String List Bool Lia PrimFloat DecimalString.
From stdpp Require Import base option list.
Import ListNotations.
Open Scope string_scope.
Open Scope Z_scope.

(** ** The host *)

(** A color as [adsk.core.Color.create(r, g, b, o)] receives it. *)
Definition Color : Type := Z * Z * Z * Z.

Definition Point : Type := Z * Z * Z.

(** Host objects are referred to by their position in the host's tables, so
    that two references denote the same object exactly when they are equal. *)
Definition CompRef := nat.
Definition BodyRef := nat.

Inductive AppRef :=
| LibraryAppearance (lib : nat) (i : nat)
| DesignAppearance (i : nat).

(** What the module reads of an [adsk.core.Appearance]: its [id], its [name]
    and the value of its ["surface_albedo"] property ([None] when the
    appearance has no such property). *)
Record Appearance := {
  app_id : string;
  app_name : string;
  app_albedo : option Color
}.

Record MaterialLibrary := {
  lib_id : string;
  lib_appearances : list Appearance
}.

Inductive DesignTypes := DirectDesignType | ParametricDesignType.

Record Design := {
  designType : DesignTypes;
  appearances : list Appearance
}.

Record Component := {
  comp_id : string;
  comp_name : string
}.

(** The two solids the temporary B-Rep manager is asked for. *)
Inductive Geometry :=
| Box (center lengthDirection widthDirection : Point)
      (length width height : float)
| Sphere (center : Point) (radius : float).

(** A body of a component.  [body_appearance] and [body_name] are [None]
    until the module assigns them (the host then shows its own defaults). *)
Record BRepBody := {
  body_parent : CompRef;
  body_geometry : Geometry;
  body_appearance : option AppRef;
  body_name : option string
}.

(** The calls of the host API, in the order the host receives them.
    Reading a property of a host object ([activeProduct], [designType],
    [materialLibraries], [appearances], [bRepBodies], [id], [name],
    [appearanceProperties]) is a read of the host state and is not logged;
    method calls and property assignments are. *)
Inductive HostCall :=
| Application_get
| Design_cast
| MaterialLibraries_itemById (id : string)
| Appearances_itemById (id : string)
| Appearances_itemByName (name : string)
| Appearances_addByCopy (source : option AppRef) (name : string)
| AppearanceProperties_itemById (id : string)
| Color_create (r g b o : Z)
| Property_set_value (a : AppRef) (c : Color)
| TemporaryBRepManager_get
| Point3D_create (p : Point)
| Vector3D_create (v : Point)
| OrientedBoundingBox3D_create (center lengthDirection widthDirection : Point)
                               (length width height : float)
| TemporaryBRepManager_createBox (g : Geometry)
| TemporaryBRepManager_createSphere (center : Point) (radius : float)
| BRepBodies_add (c : CompRef) (g : Geometry)
| BRepBody_set_appearance (b : BodyRef) (a : option AppRef)
| BRepBody_set_name (b : BodyRef) (n : string)
| BRepBody_deleteMe (b : BodyRef).

(** The host state.  [bodies] keeps a slot for every body ever added; a
    deleted body leaves [None] in its slot, so a reference is never reused.
    [kernel_accepts] says which solids the modelling kernel agrees to
    build. *)
Record Host := {
  activeProduct : option Design;
  materialLibraries : list MaterialLibrary;
  components : list Component;
  bodies : list (option BRepBody);
  kernel_accepts : Geometry -> bool;
  calls : list HostCall
}.

Definition set_activeProduct (d : option Design) (h : Host) : Host :=
  {| activeProduct := d; materialLibraries := materialLibraries h;
     components := components h; bodies := bodies h;
     kernel_accepts := kernel_accepts h; calls := calls h |}.

Definition set_bodies (bs : list (option BRepBody)) (h : Host) : Host :=
  {| activeProduct := activeProduct h; materialLibraries := materialLibraries h;
     components := components h; bodies := bs;
     kernel_accepts := kernel_accepts h; calls := calls h |}.

Definition set_calls (cs : list HostCall) (h : Host) : Host :=
  {| activeProduct := activeProduct h; materialLibraries := materialLibraries h;
     components := components h; bodies := bodies h;
     kernel_accepts := kernel_accepts h; calls := cs |}.

Definition set_appearances (l : list Appearance) (d : Design) : Design :=
  {| designType := designType d; appearances := l |}.

Definition set_albedo (c : option Color) (a : Appearance) : Appearance :=
  {| app_id := app_id a; app_name := app_name a; app_albedo := c |}.

Definition set_body_appearance (a : option AppRef) (b : BRepBody) : BRepBody :=
  {| body_parent := body_parent b; body_geometry := body_geometry b;
     body_appearance := a; body_name := body_name b |}.

Definition set_body_name (n : option string) (b : BRepBody) : BRepBody :=
  {| body_parent := body_parent b; body_geometry := body_geometry b;
     body_appearance := body_appearance b; body_name := n |}.

(** The body a reference denotes, if it has not been deleted. *)
Definition body_at (h : Host) (b : BodyRef) : option BRepBody :=
  mjoin (bodies h !! b).

(** The appearance a reference denotes. *)
Definition appearance_at (h : Host) (r : AppRef) : option Appearance :=
  match r with
  | LibraryAppearance l i =>
      lib ← materialLibraries h !! l; lib_appearances lib !! i
  | DesignAppearance i =>
      d ← activeProduct h; appearances d !! i
  end.

(** [itemById] and [itemByName] of the host's collections: the position of
    the first item with that key, [None] (Python's [None]) when there is
    none. *)
Fixpoint index_of {A} (p : A -> bool) (l : list A) : option nat :=
  match l with
  | [] => None
  | x :: l' => if p x then Some O else S <$> index_of p l'
  end.

Definition libraries_itemById (libs : list MaterialLibrary) (id : string)
  : option nat :=
  index_of (fun l => String.eqb (lib_id l) id) libs.

Definition appearances_itemById (apps : list Appearance) (id : string)
  : option nat :=
  index_of (fun a => String.eqb (app_id a) id) apps.

Definition appearances_itemByName (apps : list Appearance) (name : string)
  : option nat :=
  index_of (fun a => String.eqb (app_name a) name) apps.

(** ** Python objects and computations *)

Inductive VoxelClass := DirectCube | DirectSphere.

(** The attribute slots of a voxel object.  A slot is [None] while the
    attribute has not been assigned; [_color] and [_body] hold Python values
    that can themselves be [None]. *)
Record VoxelObj := {
  class_of : VoxelClass;
  _name : option string;
  _component : option CompRef;
  _center : option Point;
  _side_length : option float;
  _color : option (option Color);
  _appearance : option string;
  _body : option (option BodyRef)
}.

(** The object [object.__new__] returns: of the given class, without
    attributes. *)
Definition new_object (c : VoxelClass) : VoxelObj :=
  {| class_of := c; _name := None; _component := None; _center := None;
     _side_length := None; _color := None; _appearance := None;
     _body := None |}.

Inductive Exception :=
| RuntimeError (msg : string)
| AttributeError
| NotImplementedError
| HostError.

Inductive Outcome (A : Type) :=
| Return (a : A)
| Raise (e : Exception).
Arguments Return {A} a.
Arguments Raise {A} e.

Record World := { self : VoxelObj; host : Host }.

(** A computation runs on the object and the host, changes both, and ends
    with a value or an exception; what it changed before raising stays
    changed. *)
Definition Py (A : Type) : Type := World -> Outcome A * World.

Definition ret {A} (a : A) : Py A := fun w => (Return a, w).

Definition raise {A} (e : Exception) : Py A := fun w => (Raise e, w).

Definition bind {A B} (m : Py A) (k : A -> Py B) : Py B :=
  fun w => match m w with
           | (Return a, w') => k a w'
           | (Raise e, w') => (Raise e, w')
           end.

Declare Scope py_scope.
Delimit Scope py_scope with py.
Notation "x <- m ;; k" := (bind m (fun x => k))
  (at level 100, m at next level, right associativity) : py_scope.
Notation "m ;; k" := (bind m (fun _ => k))
  (at level 100, right associativity) : py_scope.
Open Scope py_scope.

Definition get_self : Py VoxelObj := fun w => (Return (self w), w).

Definition get_host : Py Host := fun w => (Return (host w), w).

Definition put_self (o : VoxelObj) : Py unit :=
  fun w => (Return tt, {| self := o; host := host w |}).

Definition put_host (h : Host) : Py unit :=
  fun w => (Return tt, {| self := self w; host := h |}).

(** [self.<slot>]: reading an attribute that was never assigned raises. *)
Definition getattr {A} (slot : VoxelObj -> option A) : Py A :=
  o <- get_self ;;
  match slot o with
  | Some a => ret a
  | None => raise AttributeError
  end.

(** [x.<anything>] where [x] may be Python's [None]. *)
Definition deref {A} (x : option A) : Py A :=
  match x with
  | Some a => ret a
  | None => raise AttributeError
  end.

(** The object with one slot assigned. *)
Definition with_name (v : string) (o : VoxelObj) : VoxelObj :=
  {| class_of := class_of o; _name := Some v;
     _component := _component o; _center := _center o;
     _side_length := _side_length o; _color := _color o;
     _appearance := _appearance o; _body := _body o |}.

Definition with_component (v : CompRef) (o : VoxelObj) : VoxelObj :=
  {| class_of := class_of o; _name := _name o;
     _component := Some v; _center := _center o;
     _side_length := _side_length o; _color := _color o;
     _appearance := _appearance o; _body := _body o |}.

Definition with_center (v : Point) (o : VoxelObj) : VoxelObj :=
  {| class_of := class_of o; _name := _name o;
     _component := _component o; _center := Some v;
     _side_length := _side_length o; _color := _color o;
     _appearance := _appearance o; _body := _body o |}.

Definition with_side_length (v : float) (o : VoxelObj) : VoxelObj :=
  {| class_of := class_of o; _name := _name o;
     _component := _component o; _center := _center o;
     _side_length := Some v; _color := _color o;
     _appearance := _appearance o; _body := _body o |}.

Definition with_color (v : option Color) (o : VoxelObj) : VoxelObj :=
  {| class_of := class_of o; _name := _name o;
     _component := _component o; _center := _center o;
     _side_length := _side_length o; _color := Some v;
     _appearance := _appearance o; _body := _body o |}.

Definition with_appearance (v : string) (o : VoxelObj) : VoxelObj :=
  {| class_of := class_of o; _name := _name o;
     _component := _component o; _center := _center o;
     _side_length := _side_length o; _color := _color o;
     _appearance := Some v; _body := _body o |}.

Definition with_body (v : option BodyRef) (o : VoxelObj) : VoxelObj :=
  {| class_of := class_of o; _name := _name o;
     _component := _component o; _center := _center o;
     _side_length := _side_length o; _color := _color o;
     _appearance := _appearance o; _body := Some v |}.

(** [self.<slot> = v] *)
Definition setattr (update : VoxelObj -> VoxelObj) : Py unit :=
  o <- get_self ;;
  put_self (update o).

Definition setattr_name (v : string) : Py unit := setattr (with_name v).
Definition setattr_component (v : CompRef) : Py unit := setattr (with_component v).
Definition setattr_center (v : Point) : Py unit := setattr (with_center v).
Definition setattr_side_length (v : float) : Py unit := setattr (with_side_length v).
Definition setattr_color (v : option Color) : Py unit := setattr (with_color v).
Definition setattr_appearance (v : string) : Py unit := setattr (with_appearance v).
Definition setattr_body (v : option BodyRef) : Py unit := setattr (with_body v).

(** Python's [==] on the values the setters compare. *)
Definition point_eqb (p q : Point) : bool :=
  let '(x1, y1, z1) := p in
  let '(x2, y2, z2) := q in
  (x1 =? x2) && (y1 =? y2) && (z1 =? z2).

Definition color_eqb (c d : Color) : bool :=
  let '(r1, g1, b1, o1) := c in
  let '(r2, g2, b2, o2) := d in
  (r1 =? r2) && (g1 =? g2) && (b1 =? b2) && (o1 =? o2).

Definition opt_color_eqb (c d : option Color) : bool :=
  match c, d with
  | None, None => true
  | Some c', Some d' => color_eqb c' d'
  | _, _ => false
  end.

(** [str(z)] for an integer, as an f-string formats it. *)
Definition str (z : Z) : string := NilZero.string_of_int (Z.to_int z).

(** Plain data, as [serialize] returns it; the tuples are tuples of
    integers. *)
Inductive PyValue :=
| PyNone
| PyStr (s : string)
| PyInt (z : Z)
| PyFloat (f : float)
| PyTuple (items : list Z).

(** A [dict]: keys in insertion order, no key twice. *)
Definition Dict := list (string * PyValue).

(** [d[k] = v] *)
Fixpoint dict_set (k : string) (v : PyValue) (d : Dict) : Dict :=
  match d with
  | [] => [(k, v)]
  | (k', v') :: d' =>
      if String.eqb k' k then (k', v) :: d' else (k', v') :: dict_set k v d'
  end.

(** A dict display [{k1: v1, ..., kn: vn}]. *)
Definition dict_of (items : list (string * PyValue)) : Dict :=
  fold_left (fun d kv => dict_set (fst kv) (snd kv) d) items [].

Definition py_point (p : Point) : PyValue :=
  let '(x, y, z) := p in PyTuple [x; y; z].

Definition py_color (c : option Color) : PyValue :=
  match c with
  | None => PyNone
  | Some (r, g, b, o) => PyTuple [r; g; b; o]
  end.

(** ** The host API, call by call

    Each definition is one call or property access of the [adsk] API, with
    what the host does on it.  A lookup in a collection ([itemById],
    [itemByName]) returns [None] when there is no such item.  A call on a
    reference that denotes nothing (a component that does not exist, a body
    that has been deleted), a solid the kernel refuses and a copy of [None]
    raise [HostError]. *)

Module adsk.

Definition log (c : HostCall) : Py unit :=
  h <- get_host ;;
  put_host (set_calls (calls h ++ [c]) h).

(** The design object [Design.cast] hands out; there is one active
    product. *)
Inductive DesignRef := ActiveDesign.

(** A temporary oriented bounding box. *)
Record OrientedBoundingBox3D := {
  obb_centerPoint : Point;
  obb_lengthDirection : Point;
  obb_widthDirection : Point;
  obb_length : float;
  obb_width : float;
  obb_height : float
}.

(** [adsk.fusion.Design.cast(adsk.core.Application.get().activeProduct)]:
    [None] when the active product is not a design. *)
Definition Application_get_activeProduct_cast : Py (option DesignRef) :=
  log Application_get ;;
  h <- get_host ;;
  log Design_cast ;;
  ret (match activeProduct h with
       | Some _ => Some ActiveDesign
       | None => None
       end).

(** [design.designType] *)
Definition Design_designType (d : DesignRef) : Py DesignTypes :=
  h <- get_host ;;
  match activeProduct h with
  | Some dsg => ret (designType dsg)
  | None => raise HostError
  end.

(** [app.materialLibraries.itemById(id)] *)
Definition materialLibraries_itemById (id : string) : Py (option nat) :=
  log (MaterialLibraries_itemById id) ;;
  h <- get_host ;;
  ret (libraries_itemById (materialLibraries h) id).

(** [material_library.appearances.itemById(id)] *)
Definition library_appearances_itemById (lib : nat) (id : string)
  : Py (option AppRef) :=
  log (Appearances_itemById id) ;;
  h <- get_host ;;
  match materialLibraries h !! lib with
  | Some l =>
      ret (LibraryAppearance lib <$>
           appearances_itemById (lib_appearances l) id)
  | None => raise HostError
  end.

(** [design.appearances.itemByName(name)] *)
Definition design_appearances_itemByName (d : DesignRef) (name : string)
  : Py (option AppRef) :=
  log (Appearances_itemByName name) ;;
  h <- get_host ;;
  match activeProduct h with
  | Some dsg =>
      ret (DesignAppearance <$> appearances_itemByName (appearances dsg) name)
  | None => raise HostError
  end.

(** [design.appearances.addByCopy(source, name)]: a copy of [source]
    under the name [name] is appended to the design's appearances; the
    copy keeps the id of its source.  The host refuses [None]. *)
Definition design_appearances_addByCopy (d : DesignRef)
    (source : option AppRef) (name : string) : Py AppRef :=
  log (Appearances_addByCopy source name) ;;
  h <- get_host ;;
  match activeProduct h, source ≫= appearance_at h with
  | Some dsg, Some a =>
      put_host (set_activeProduct
        (Some (set_appearances
           (appearances dsg ++
              [{| app_id := app_id a; app_name := name;
                  app_albedo := app_albedo a |}]) dsg)) h) ;;
      ret (DesignAppearance (List.length (appearances dsg)))
  | _, _ => raise HostError
  end.

(** [appearance.appearanceProperties.itemById(id)]: the property, named
    here by the appearance that owns it; only ["surface_albedo"] is
    modelled. *)
Definition appearanceProperties_itemById (a : AppRef) (id : string)
  : Py (option AppRef) :=
  log (AppearanceProperties_itemById id) ;;
  h <- get_host ;;
  match appearance_at h a with
  | Some app =>
      ret (if String.eqb id "surface_albedo"
           then match app_albedo app with
                | Some _ => Some a
                | None => None
                end
           else None)
  | None => raise HostError
  end.

(** [adsk.core.Color.create(r, g, b, o)] *)
Definition Color_create_ (r g b o : Z) : Py Color :=
  log (Color_create r g b o) ;;
  ret (r, g, b, o).

(** [property.value = c] on the albedo property of a design appearance;
    library appearances are read-only. *)
Definition property_set_value (p : AppRef) (c : Color) : Py unit :=
  log (Property_set_value p c) ;;
  h <- get_host ;;
  match p, activeProduct h with
  | DesignAppearance i, Some dsg =>
      match appearances dsg !! i with
      | Some app =>
          put_host (set_activeProduct
            (Some (set_appearances
               (<[i := set_albedo (Some c) app]> (appearances dsg)) dsg)) h)
      | None => raise HostError
      end
  | _, _ => raise HostError
  end.

(** [adsk.fusion.TemporaryBRepManager.get()] *)
Definition TemporaryBRepManager_get_ : Py unit :=
  log TemporaryBRepManager_get.

(** [adsk.core.Point3D.create(x, y, z)] *)
Definition Point3D_create_ (p : Point) : Py Point :=
  log (Point3D_create p) ;;
  ret p.

(** [adsk.core.Vector3D.create(x, y, z)] *)
Definition Vector3D_create_ (x y z : Z) : Py Point :=
  log (Vector3D_create (x, y, z)) ;;
  ret (x, y, z).

(** [adsk.core.OrientedBoundingBox3D.create(...)] *)
Definition OrientedBoundingBox3D_create_ (c l w : Point)
    (length width height : float) : Py OrientedBoundingBox3D :=
  log (OrientedBoundingBox3D_create c l w length width height) ;;
  ret {| obb_centerPoint := c; obb_lengthDirection := l;
         obb_widthDirection := w; obb_length := length;
         obb_width := width; obb_height := height |}.

(** [manager.createBox(box)]: the kernel builds the solid or refuses. *)
Definition createBox (b : OrientedBoundingBox3D) : Py Geometry :=
  let g := Box (obb_centerPoint b) (obb_lengthDirection b)
               (obb_widthDirection b)
               (obb_length b) (obb_width b) (obb_height b) in
  log (TemporaryBRepManager_createBox g) ;;
  h <- get_host ;;
  if kernel_accepts h g then ret g else raise HostError.

(** [manager.createSphere(center, radius)] *)
Definition createSphere (c : Point) (r : float) : Py Geometry :=
  log (TemporaryBRepManager_createSphere c r) ;;
  h <- get_host ;;
  if kernel_accepts h (Sphere c r) then ret (Sphere c r)
  else raise HostError.

(** [component.bRepBodies]: the component has to exist. *)
Definition bRepBodies (c : CompRef) : Py unit :=
  h <- get_host ;;
  match components h !! c with
  | Some _ => ret tt
  | None => raise HostError
  end.

(** [component.bRepBodies.add(body)]: the solid becomes a new body of the
    component, in a new slot. *)
Definition bRepBodies_add (c : CompRef) (g : Geometry) : Py BodyRef :=
  log (BRepBodies_add c g) ;;
  h <- get_host ;;
  put_host (set_bodies
    (bodies h ++ [Some {| body_parent := c; body_geometry := g;
                          body_appearance := None; body_name := None |}])
    h) ;;
  ret (List.length (bodies h)).

(** [body.appearance = a] *)
Definition body_set_appearance (b : BodyRef) (a : option AppRef) : Py unit :=
  log (BRepBody_set_appearance b a) ;;
  h <- get_host ;;
  match body_at h b with
  | Some bd =>
      put_host (set_bodies
        (<[b := Some (set_body_appearance a bd)]> (bodies h)) h)
  | None => raise HostError
  end.

(** [body.name = n] *)
Definition body_set_name (b : BodyRef) (n : string) : Py unit :=
  log (BRepBody_set_name b n) ;;
  h <- get_host ;;
  match body_at h b with
  | Some bd =>
      put_host (set_bodies
        (<[b := Some (set_body_name (Some n) bd)]> (bodies h)) h)
  | None => raise HostError
  end.

(** [body.deleteMe()] *)
Definition deleteMe (b : BodyRef) : Py unit :=
  log (BRepBody_deleteMe b) ;;
  h <- get_host ;;
  match body_at h b with
  | Some _ => put_host (set_bodies (<[b := None]> (bodies h)) h)
  | None => raise HostError
  end.

(** [component.id] and [component.name] *)
Definition component_id (c : CompRef) : Py string :=
  h <- get_host ;;
  match components h !! c with
  | Some cd => ret (comp_id cd)
  | None => raise HostError
  end.

Definition component_name (c : CompRef) : Py string :=
  h <- get_host ;;
  match components h !! c with
  | Some cd => ret (comp_name cd)
  | None => raise HostError
  end.

End adsk.

(** ** The classes *)

(** [_create_body] and [shape] are abstract in [Voxel] and defined by the
    concrete classes; [self._create_body()] and [self.shape] run the
    definition of the object's class. *)
Class VoxelMethods := {
  self__create_body : Py BodyRef;
  self_shape : Py string
}.

(** *** [class Voxel(ABC)] (voxels.py, lines 7-182) *)

Module Voxel.

(** The property getters (lines 47-98). *)
Definition component : Py CompRef := getattr _component.
Definition center : Py Point := getattr _center.
Definition side_length : Py float := getattr _side_length.
Definition body : Py (option BodyRef) := getattr _body.
Definition appearance : Py string := getattr _appearance.
Definition color : Py (option Color) := getattr _color.

(** The [shape] of the base class (lines 108-111). *)
Definition shape : Py string := raise NotImplementedError.

(** [delete] (lines 42-45): [self._body.deleteMe()], then
    [self._body = None]. *)
Definition delete : Py unit :=
  b <- getattr _body ;;
  b <- deref b ;;
  adsk.deleteMe b ;;
  setattr_body None.

(** The id of the Fusion material library (line 125). *)
Definition material_library_id : string :=
  "BA5EE55E-9982-449B-9D66-9F036540E140".

(** The f-string of line 137. *)
Definition colored_appearance_name (appearance : string) (c : Color)
  : string :=
  let '(r, g, b, o) := c in
  appearance ++ "__custom_r" ++ str r ++ "g" ++ str g
             ++ "b" ++ str b ++ "o" ++ str o.

(** [_get_appearance] (lines 113-150).  In the assignment of lines
    146-148 Python evaluates the right-hand side, [Color.create], before
    the target, [appearanceProperties.itemById]. *)
Definition _get_appearance : Py (option AppRef) :=
  design <- adsk.Application_get_activeProduct_cast ;;
  material_library <- adsk.materialLibraries_itemById material_library_id ;;
  lib <- deref material_library ;;
  id <- getattr _appearance ;;
  base_appearance <- adsk.library_appearances_itemById lib id ;;
  c <- getattr _color ;;
  match c with
  | None => ret base_appearance
  | Some (r, g, b, o) =>
      id <- getattr _appearance ;;
      let name := colored_appearance_name id (r, g, b, o) in
      d <- deref design ;;
      colored_appearance <- adsk.design_appearances_itemByName d name ;;
      match colored_appearance with
      | Some a => ret (Some a)
      | None =>
          d <- deref design ;;
          a <- adsk.design_appearances_addByCopy d base_appearance name ;;
          v <- adsk.Color_create_ r g b o ;;
          p <- adsk.appearanceProperties_itemById a "surface_albedo" ;;
          p <- deref p ;;
          adsk.property_set_value p v ;;
          ret (Some a)
      end
  end.

(** The abstract [_create_body] (lines 152-161). *)
Definition _create_body : Py BodyRef := raise NotImplementedError.

Section Methods.
Context `{VoxelMethods}.

(** [__init__] (lines 8-40); [tuple(...)] of a tuple is that tuple. *)
Definition __init__ (component : CompRef) (center : Point)
    (side_length : float) (color : option Color) (appearance : string)
  : Py unit :=
  setattr_component component ;;
  setattr_center center ;;
  setattr_side_length side_length ;;
  setattr_color color ;;
  setattr_appearance appearance ;;
  b <- self__create_body ;;
  setattr_body (Some b).

(** [serialize] (lines 163-178). *)
Definition serialize : Py Dict :=
  c <- component ;;
  component_name <- adsk.component_name c ;;
  center <- center ;;
  side_length <- side_length ;;
  color <- color ;;
  appearance <- appearance ;;
  shape <- self_shape ;;
  ret (dict_of [("component_name", PyStr component_name);
                ("center", py_point center);
                ("side_length", PyFloat side_length);
                ("color", py_color color);
                ("appearance", PyStr appearance);
                ("shape", PyStr shape)]).

(** [recreate_body] (lines 180-182). *)
Definition recreate_body : Py unit :=
  delete ;;
  b <- self__create_body ;;
  setattr_body (Some b).

End Methods.

End Voxel.

(** *** [class DirectVoxel(Voxel)] (lines 189-277) *)

Module DirectVoxel.

Section Methods.
Context `{VoxelMethods}.

(** [__init__] (lines 190-225). *)
Definition __init__ (component : CompRef) (center : Point)
    (side_length : float) (color : option Color) (appearance : string)
    (name : string) : Py unit :=
  design <- adsk.Application_get_activeProduct_cast ;;
  d <- deref design ;;
  ty <- adsk.Design_designType d ;;
  match ty with
  | ParametricDesignType =>
      raise (RuntimeError
        "A instance of a DirectVoxel can not be created in parameteric design environment.")
  | DirectDesignType =>
      setattr_name name ;;
      Voxel.__init__ component center side_length color appearance
  end.

(** The [name] property and its setter (lines 227-235). *)
Definition name : Py string := getattr _name.

Definition name_setter (new_name : string) : Py unit :=
  n <- getattr _name ;;
  if negb (String.eqb n new_name) then
    setattr_name new_name ;;
    b <- getattr _body ;;
    b <- deref b ;;
    adsk.body_set_name b new_name
  else ret tt.

(** The [color] setter (lines 237-242).  In [self._body.appearance =
    self._get_appearance()] the right-hand side is evaluated first. *)
Definition color_setter (new_color : option Color) : Py unit :=
  c <- getattr _color ;;
  if negb (opt_color_eqb c new_color) then
    setattr_color new_color ;;
    a <- Voxel._get_appearance ;;
    b <- getattr _body ;;
    b <- deref b ;;
    adsk.body_set_appearance b a
  else ret tt.

(** The [appearance] setter (lines 244-248). *)
Definition appearance_setter (new_appearance_name : string) : Py unit :=
  a <- getattr _appearance ;;
  if negb (String.eqb new_appearance_name a) then
    setattr_appearance new_appearance_name ;;
    a <- Voxel._get_appearance ;;
    b <- getattr _body ;;
    b <- deref b ;;
    adsk.body_set_appearance b a
  else ret tt.

(** The [component] setter (lines 250-254): the two components are
    compared by their [id]. *)
Definition component_setter (new_component : CompRef) : Py unit :=
  new_id <- adsk.component_id new_component ;;
  c <- getattr _component ;;
  id <- adsk.component_id c ;;
  if negb (String.eqb new_id id) then
    setattr_component new_component ;;
    Voxel.recreate_body
  else ret tt.

(** The [center] setter (lines 256-261). *)
Definition center_setter (new_center : Point) : Py unit :=
  c <- getattr _center ;;
  if negb (point_eqb c new_center) then
    setattr_center new_center ;;
    Voxel.recreate_body
  else ret tt.

(** The [side_length] setter (lines 263-267); [!=] on floats is IEEE
    inequality. *)
Definition side_length_setter (new_side_length : float) : Py unit :=
  s <- getattr _side_length ;;
  if negb (PrimFloat.eqb new_side_length s) then
    setattr_side_length new_side_length ;;
    Voxel.recreate_body
  else ret tt.

(** [serialize] (lines 269-277): [{**super().serialize(), "name":
    self.name}]. *)
Definition serialize : Py Dict :=
  d <- Voxel.serialize ;;
  name <- name ;;
  ret (dict_set "name" (PyStr name) d).

End Methods.

End DirectVoxel.

(** *** [class DirectCube(DirectVoxel)] (lines 280-334) *)

Module DirectCube.

(** [_create_body] (lines 308-329).  Python evaluates
    [self._component.bRepBodies.add] before the argument of the call, and
    the arguments of each call from left to right. *)
Definition _create_body : Py BodyRef :=
  c <- getattr _component ;;
  adsk.bRepBodies c ;;
  adsk.TemporaryBRepManager_get_ ;;
  center <- getattr _center ;;
  p <- adsk.Point3D_create_ center ;;
  l <- adsk.Vector3D_create_ 1 0 0 ;;
  w <- adsk.Vector3D_create_ 0 1 0 ;;
  s1 <- getattr _side_length ;;
  s2 <- getattr _side_length ;;
  s3 <- getattr _side_length ;;
  box <- adsk.OrientedBoundingBox3D_create_ p l w s1 s2 s3 ;;
  g <- adsk.createBox box ;;
  new_body <- adsk.bRepBodies_add c g ;;
  a <- Voxel._get_appearance ;;
  adsk.body_set_appearance new_body a ;;
  n <- getattr _name ;;
  adsk.body_set_name new_body n ;;
  ret new_body.

(** [shape] (lines 331-334). *)
Definition shape : Py string := ret "cube".

End DirectCube.

(** *** [class DirectSphere(DirectVoxel)] (lines 337-384) *)

Module DirectSphere.

(** [_create_body] (lines 365-379); [/] is the division of floats. *)
Definition _create_body : Py BodyRef :=
  c <- getattr _component ;;
  adsk.bRepBodies c ;;
  adsk.TemporaryBRepManager_get_ ;;
  center <- getattr _center ;;
  p <- adsk.Point3D_create_ center ;;
  s <- getattr _side_length ;;
  g <- adsk.createSphere p (s / 2)%float ;;
  new_body <- adsk.bRepBodies_add c g ;;
  a <- Voxel._get_appearance ;;
  adsk.body_set_appearance new_body a ;;
  n <- getattr _name ;;
  adsk.body_set_name new_body n ;;
  ret new_body.

(** [shape] (lines 381-384). *)
Definition shape : Py string := ret "sphere".

End DirectSphere.

(** Method resolution: the class of [self] decides. *)
#[global] Instance methods_of_self : VoxelMethods := {|
  self__create_body :=
    o <- get_self ;;
    match class_of o with
    | DirectCube => DirectCube._create_body
    | DirectSphere => DirectSphere._create_body
    end;
  self_shape :=
    o <- get_self ;;
    match class_of o with
    | DirectCube => DirectCube.shape
    | DirectSphere => DirectSphere.shape
    end
|}.

(** [DirectCube.__init__] and [DirectSphere.__init__] (lines 281-306 and
    338-363) pass their arguments on to [DirectVoxel.__init__]; [Voxel] and
    [DirectVoxel] leave [_create_body] abstract and cannot be instantiated.
    A constructor call allocates the object, runs [__init__] on it and
    hands the object out if [__init__] returns. *)
Definition construct (cls : VoxelClass) (component : CompRef) (center : Point)
    (side_length : float) (color : option Color) (appearance : string)
    (name : string) (h : Host) : Outcome unit * World :=
  DirectVoxel.__init__ component center side_length color appearance name
    {| self := new_object cls; host := h |}.

(** * The vocabulary of the properties *)

(** The host after it has received further calls. *)
Definition called (cs : list HostCall) (h : Host) : Host :=
  set_calls (calls h ++ cs) h.

(** The calls every appearance resolution starts with. *)
Definition lookup_calls (id : string) : list HostCall :=
  [Application_get; Design_cast;
   MaterialLibraries_itemById Voxel.material_library_id;
   Appearances_itemById id].

(** The successful runs of [_get_appearance], as a relation between what
    the method reads (the libraries, the voxel's appearance id and color,
    the design) and what it produces (the appearance returned, the design
    afterwards, the calls made). *)
Inductive resolution (libs : list MaterialLibrary) (id : string)
  : option Color -> option Design ->
    option AppRef -> option Design -> list HostCall -> Prop :=
| resolution_base l lib d :
    libraries_itemById libs Voxel.material_library_id = Some l ->
    libs !! l = Some lib ->
    resolution libs id None d
      (LibraryAppearance l <$> appearances_itemById (lib_appearances lib) id)
      d (lookup_calls id)
| resolution_existing c l lib d i :
    libraries_itemById libs Voxel.material_library_id = Some l ->
    libs !! l = Some lib ->
    appearances_itemByName (appearances d)
      (Voxel.colored_appearance_name id c) = Some i ->
    resolution libs id (Some c) (Some d)
      (Some (DesignAppearance i)) (Some d)
      (lookup_calls id ++
         [Appearances_itemByName (Voxel.colored_appearance_name id c)])
| resolution_new c l lib d j base albedo :
    libraries_itemById libs Voxel.material_library_id = Some l ->
    libs !! l = Some lib ->
    appearances_itemByName (appearances d)
      (Voxel.colored_appearance_name id c) = None ->
    appearances_itemById (lib_appearances lib) id = Some j ->
    lib_appearances lib !! j = Some base ->
    app_albedo base = Some albedo ->
    resolution libs id (Some c) (Some d)
      (Some (DesignAppearance (List.length (appearances d))))
      (Some (set_appearances
         (appearances d ++
            [{| app_id := app_id base;
                app_name := Voxel.colored_appearance_name id c;
                app_albedo := Some c |}]) d))
      (lookup_calls id ++
         [Appearances_itemByName (Voxel.colored_appearance_name id c);
          Appearances_addByCopy (Some (LibraryAppearance l j))
            (Voxel.colored_appearance_name id c);
          Color_create c.1.1.1 c.1.1.2 c.1.2 c.2;
          AppearanceProperties_itemById "surface_albedo";
          Property_set_value
            (DesignAppearance (List.length (appearances d))) c]).

(** When [_get_appearance] returns: the material library is there and, for
    a colored voxel, a design is open that has an appearance of the derived
    name, or else the library has the base appearance and that has an
    albedo. *)
Definition can_resolve (libs : list MaterialLibrary) (d : option Design)
    (id : string) (col : option Color) : bool :=
  match libraries_itemById libs Voxel.material_library_id with
  | None => false
  | Some l =>
      match col with
      | None => true
      | Some c =>
          match d with
          | None => false
          | Some dsg =>
              match appearances_itemByName (appearances dsg)
                      (Voxel.colored_appearance_name id c) with
              | Some _ => true
              | None =>
                  match
                    lib ← libs !! l;
                    j ← appearances_itemById (lib_appearances lib) id;
                    base ← lib_appearances lib !! j;
                    app_albedo base
                  with
                  | Some _ => true
                  | None => false
                  end
              end
          end
      end
  end.

(** The solid a voxel of a class stands for, and the calls that build it in
    a component. *)
Definition solid (cls : VoxelClass) (p : Point) (s : float) : Geometry :=
  match cls with
  | DirectCube => Box p (1, 0, 0) (0, 1, 0) s s s
  | DirectSphere => Sphere p (s / 2)%float
  end.

Definition solid_calls (cls : VoxelClass) (c : CompRef) (p : Point)
    (s : float) : list HostCall :=
  match cls with
  | DirectCube =>
      [TemporaryBRepManager_get; Point3D_create p;
       Vector3D_create (1, 0, 0); Vector3D_create (0, 1, 0);
       OrientedBoundingBox3D_create p (1, 0, 0) (0, 1, 0) s s s;
       TemporaryBRepManager_createBox (Box p (1, 0, 0) (0, 1, 0) s s s);
       BRepBodies_add c (Box p (1, 0, 0) (0, 1, 0) s s s)]
  | DirectSphere =>
      [TemporaryBRepManager_get; Point3D_create p;
       TemporaryBRepManager_createSphere p (s / 2)%float;
       BRepBodies_add c (Sphere p (s / 2)%float)]
  end.

(** The host after a body has been built, given its appearance and named. *)
Definition with_new_body (h : Host) (cls : VoxelClass) (c : CompRef)
    (p : Point) (s : float) (n : string) (r : option AppRef)
    (d' : option Design) (cs : list HostCall) : Host :=
  {| activeProduct := d';
     materialLibraries := materialLibraries h;
     components := components h;
     bodies := bodies h ++
       [Some {| body_parent := c; body_geometry := solid cls p s;
                body_appearance := r; body_name := Some n |}];
     kernel_accepts := kernel_accepts h;
     calls := calls h ++ solid_calls cls c p s ++ cs ++
       [BRepBody_set_appearance (List.length (bodies h)) r;
        BRepBody_set_name (List.length (bodies h)) n] |}.

(** The host after body [b] has been deleted. *)
Definition without_body (b : BodyRef) (h : Host) : Host :=
  set_bodies (<[b := None]> (bodies h)) (called [BRepBody_deleteMe b] h).

(** [keeps f m]: whatever [m] does and however it ends, [f] of the object
    is afterwards what it was. *)
Definition keeps {X A} (f : VoxelObj -> X) (m : Py A) : Prop :=
  forall w, f (self (snd (m w))) = f (self w).

(** What a script can do to a voxel once it is built. *)
Inductive Operation :=
| SetName (new_name : string)
| SetColor (new_color : option Color)
| SetAppearance (new_appearance_name : string)
| SetComponent (new_component : CompRef)
| SetCenter (new_center : Point)
| SetSideLength (new_side_length : float)
| RecreateBody
| Delete.

Definition perform (op : Operation) : Py unit :=
  match op with
  | SetName n => DirectVoxel.name_setter n
  | SetColor c => DirectVoxel.color_setter c
  | SetAppearance a => DirectVoxel.appearance_setter a
  | SetComponent c => DirectVoxel.component_setter c
  | SetCenter p => DirectVoxel.center_setter p
  | SetSideLength s => DirectVoxel.side_length_setter s
  | RecreateBody => Voxel.recreate_body
  | Delete => Voxel.delete
  end.

(** A script: one operation after the other, going on after an operation
    that raised (as a caller that catches the exception would). *)
Fixpoint script (ops : list Operation) (w : World) : World :=
  match ops with
  | [] => w
  | op :: ops' => script ops' (snd (perform op w))
  end.

(** The host after body [b] has been given the appearance resolved for the
    voxel. *)
Definition with_appearance_on (b : BodyRef) (bd : BRepBody)
    (r : option AppRef) (d' : option Design) (cs : list HostCall)
    (h : Host) : Host :=
  set_bodies (<[b := Some (set_body_appearance r bd)]> (bodies h))
    (called (cs ++ [BRepBody_set_appearance b r]) (set_activeProduct d' h)).

(** ** A document to run the classes on *)

Module Example.

Definition library : MaterialLibrary :=
  {| lib_id := "BA5EE55E-9982-449B-9D66-9F036540E140";
     lib_appearances :=
       [{| app_id := "Prism-256"; app_name := "Plastic - Matte (Yellow)";
           app_albedo := Some (255, 255, 0, 255) |};
        {| app_id := "Prism-089"; app_name := "Steel - Satin";
           app_albedo := Some (128, 128, 128, 255) |}] |}.

(** A direct-modelling design with two components and no bodies. *)
Definition document : Host :=
  {| activeProduct :=
       Some {| designType := DirectDesignType; appearances := [] |};
     materialLibraries := [library];
     components := [{| comp_id := "root"; comp_name := "Voxels" |};
                    {| comp_id := "c1"; comp_name := "Layer 1" |}];
     bodies := [];
     kernel_accepts := fun _ => true;
     calls := [] |}.

(** The same document in history-based mode. *)
Definition parametric_document : Host :=
  set_activeProduct
    (Some {| designType := ParametricDesignType; appearances := [] |})
    document.

(** A document in which somebody has given the appearance that carries
    the derived name of red ["Prism-256"] a blue albedo. *)
Definition edited_document : Host :=
  set_activeProduct
    (Some {| designType := DirectDesignType;
             appearances :=
               [{| app_id := "Prism-256";
                   app_name := "Prism-256__custom_r255g0b0o255";
                   app_albedo := Some (0, 0, 255, 255) |}] |})
    document.

Definition red : Color := (255, 0, 0, 255).

(** [DirectCube(root, (1, 2, 3), 2.0, (255, 0, 0, 255))] *)
Definition red_cube : World :=
  snd (construct DirectCube 0%nat (1, 2, 3) 2%float (Some red)
         "Prism-256" "Cube" document).

(** [DirectSphere(root, (0, 0, 0), 3.0)] *)
Definition plain_sphere : World :=
  snd (construct DirectSphere 0%nat (0, 0, 0) 3%float None
         "Prism-256" "Sphere" document).

(** [DirectCube(root, (1, 2, 3), 2.0, (255, 0, 0, 255))] in the edited
    document. *)
Definition red_cube_edited : World :=
  snd (construct DirectCube 0%nat (1, 2, 3) 2%float (Some red)
         "Prism-256" "Cube" edited_document).

End Example.

(** The shape tag of a class. *)
Definition shape_name (cls : VoxelClass) : string :=
  match cls with
  | DirectCube => "cube"
  | DirectSphere => "sphere"
  end.

(** The error [DirectVoxel.__init__] raises in a history-based design. *)
Definition parametric_error : Exception :=
  RuntimeError
    "A instance of a DirectVoxel can not be created in parameteric design environment.".

(** The calls that ask for the solid of a cube and of a sphere. *)
Definition box_request (p : Point) (s : float) : list HostCall :=
  [TemporaryBRepManager_get; Point3D_create p;
   Vector3D_create (1, 0, 0); Vector3D_create (0, 1, 0);
   OrientedBoundingBox3D_create p (1, 0, 0) (0, 1, 0) s s s;
   TemporaryBRepManager_createBox (Box p (1, 0, 0) (0, 1, 0) s s s)].

Definition sphere_request (p : Point) (s : float) : list HostCall :=
  [TemporaryBRepManager_get; Point3D_create p;
   TemporaryBRepManager_createSphere p (s / 2)%float].

(** What it means that a call has replaced body [b] of the voxel of [w] by
    a new body: it returns; the voxel then refers to a body [b'] other than
    [b], in a slot the host did not have before; [b] has been deleted in
    the host ([deleteMe] is the first call made) and [b'] is there; the
    shape tag is what it was. *)
Definition rebuilt (w : World) (b : BodyRef) (out : Outcome unit * World)
  : Prop :=
  exists w' b' bd' after,
    out = (Return tt, w') /\
    _body (self w') = Some (Some b') /\
    b' <> b /\
    body_at (host w) b' = None /\
    body_at (host w') b = None /\
    body_at (host w') b' = Some bd' /\
    calls (host w') = (calls (host w) ++ BRepBody_deleteMe b :: after)%list /\
    fst (self_shape w') = fst (self_shape w).

(** What it means that the body the voxel refers to after a call carries
    the name [n] and the appearance resolved for the voxel, whose name,
    color and appearance id are [n], [col] and [id] as before. *)
Definition rebuilt_with_cosmetics (n : string) (col : option Color)
    (id : string) (out : Outcome unit * World) : Prop :=
  exists w' b' bd',
    out = (Return tt, w') /\
    _body (self w') = Some (Some b') /\
    body_at (host w') b' = Some bd' /\
    body_name bd' = Some n /\
    fst (Voxel._get_appearance w') = Return (body_appearance bd') /\
    _name (self w') = Some n /\
    _color (self w') = Some col /\
    _appearance (self w') = Some id.

(** * Verification *)

(** ** Reasoning about computations *)

Create HintDb py discriminated.

#[local] Hint Unfold
  ret raise bind get_self get_host put_self put_host getattr deref
  setattr setattr_name setattr_component setattr_center setattr_side_length
  setattr_color setattr_appearance setattr_body
  adsk.log adsk.Application_get_activeProduct_cast adsk.Design_designType
  adsk.materialLibraries_itemById adsk.library_appearances_itemById
  adsk.design_appearances_itemByName adsk.design_appearances_addByCopy
  adsk.appearanceProperties_itemById adsk.Color_create_
  adsk.property_set_value adsk.TemporaryBRepManager_get_
  adsk.Point3D_create_ adsk.Vector3D_create_
  adsk.OrientedBoundingBox3D_create_ adsk.createBox adsk.createSphere
  adsk.bRepBodies adsk.bRepBodies_add adsk.body_set_appearance
  adsk.body_set_name adsk.deleteMe adsk.component_id adsk.component_name
  set_activeProduct set_bodies set_calls set_appearances set_albedo
  set_body_appearance set_body_name body_at
  : py.

(** Evaluation that leaves table lookups, string and number comparisons
    and the call log folded. *)
Ltac py_simpl :=
  cbn -[lookup insert String.eqb app List.length index_of
        PrimFloat.eqb PrimFloat.div str String.append Z.eqb
        libraries_itemById appearances_itemById appearances_itemByName
        appearance_at Voxel.colored_appearance_name
        Voxel.material_library_id Voxel._get_appearance Voxel.delete
        Voxel.recreate_body self__create_body self_shape] in *.

Ltac py_run := autounfold with py in *; py_simpl.

(** Symbolic execution: evaluate, and decide a branch by a hypothesis about
    what it branches on. *)
Ltac py_exec :=
  repeat (py_simpl;
          match goal with
          | H : ?x = _ |- context [match ?x with _ => _ end] => rewrite H
          | H : ?x = Some _ |- context [?x] => rewrite H
          | H : ?x = None |- context [?x] => rewrite H
          | |- context [String.eqb ?s ?s] => rewrite (String.eqb_refl s)
          end);
  py_simpl.

(** The two sides of an equation between outcomes differ at most in how
    the call log is bracketed. *)
Ltac py_done :=
  py_simpl; rewrite <- ?app_assoc; cbn [app]; try reflexivity.

(** Case analysis on whatever the computation in the goal branches on. *)
Ltac py_case :=
  match goal with
  | |- context [match ?x with _ => _ end] =>
      lazymatch x with
      | context [match _ with _ => _ end] => fail
      | _ => destruct x eqn:?
      end
  end.

Ltac py_cases := repeat (py_simpl; try py_case).

(** *** The host's collections *)

Lemma index_of_Some {A} (p : A -> bool) (l : list A) (i : nat) :
  index_of p l = Some i -> exists x, l !! i = Some x /\ p x = true.
Proof.
  revert i. induction l as [|y l IH]; intros i; simpl; [discriminate|].
  destruct (p y) eqn:Hy.
  - intros [= <-]. exists y. split; [reflexivity | assumption].
  - destruct (index_of p l) as [j|]; simpl; [|discriminate].
    intros [= <-]. destruct (IH j eq_refl) as (x & Hx & Hp).
    exists x. split; assumption.
Qed.

Lemma index_of_app_old {A} (p : A -> bool) (l l' : list A) (i : nat) :
  index_of p l = Some i -> index_of p (l ++ l')%list = Some i.
Proof.
  revert i. induction l as [|y l IH]; intros i; simpl; [discriminate|].
  destruct (p y); [trivial|].
  destruct (index_of p l) as [j|]; simpl; [|discriminate].
  intros [= <-]. rewrite (IH j eq_refl). reflexivity.
Qed.

Lemma index_of_app_new {A} (p : A -> bool) (l : list A) (x : A) :
  index_of p l = None -> p x = true ->
  index_of p (l ++ [x])%list = Some (List.length l).
Proof.
  intros Hl Hx. induction l as [|y l IH]; simpl in *.
  - rewrite Hx. reflexivity.
  - destruct (p y); [discriminate|].
    destruct (index_of p l) as [j|]; simpl in *; [discriminate|].
    rewrite (IH eq_refl). reflexivity.
Qed.

Lemma insert_last {A} (l : list A) (x y : A) :
  <[List.length l := y]> (l ++ [x])%list = (l ++ [y])%list.
Proof.
  induction l as [|z l IH]; simpl; [reflexivity|].
  f_equal. exact IH.
Qed.

Lemma lookup_last {A} (l : list A) (x : A) :
  (l ++ [x])%list !! List.length l = Some x.
Proof.
  induction l as [|z l IH]; simpl; [reflexivity | exact IH].
Qed.

Lemma lookup_not_last {A} (l : list A) (x : A) (i : nat) (y : A) :
  l !! i = Some y -> (l ++ [x])%list !! i = Some y.
Proof.
  intros H. rewrite lookup_app_l; [assumption|]. eapply lookup_lt_Some; eauto.
Qed.

(** *** What appearance resolution touches *)

(** [_get_appearance] changes nothing but the design and the call log. *)
Lemma get_appearance_frame (w : World) :
  let w' := snd (Voxel._get_appearance w) in
  self w' = self w /\
  materialLibraries (host w') = materialLibraries (host w) /\
  components (host w') = components (host w) /\
  bodies (host w') = bodies (host w) /\
  kernel_accepts (host w') = kernel_accepts (host w).
Proof.
  destruct w as [o h]. unfold Voxel._get_appearance. py_run.
  py_cases; repeat split; reflexivity.
Qed.

Lemma called_called (cs cs' : list HostCall) (h : Host) :
  called cs' (called cs h) = called (cs ++ cs') h.
Proof. unfold called, set_calls. simpl. rewrite app_assoc. reflexivity. Qed.

(** Without a color the library's appearance is returned as it is (also
    when the library has none of that id: then Python's [None]). *)
Lemma get_appearance_base (o : VoxelObj) (h : Host) (id : string)
    (l : nat) (lib : MaterialLibrary) :
  _appearance o = Some id ->
  _color o = Some None ->
  libraries_itemById (materialLibraries h) Voxel.material_library_id = Some l ->
  materialLibraries h !! l = Some lib ->
  Voxel._get_appearance {| self := o; host := h |} =
    (Return (LibraryAppearance l <$> appearances_itemById (lib_appearances lib) id),
     {| self := o; host := called (lookup_calls id) h |}).
Proof.
  intros Ha Hc Hl Hlib. unfold Voxel._get_appearance, called, lookup_calls.
  py_run. py_exec. py_done.
Qed.

(** With a color, an appearance of the derived name that the design already
    has is returned as it is. *)
Lemma get_appearance_existing (o : VoxelObj) (h : Host) (id : string)
    (c : Color) (l : nat) (lib : MaterialLibrary) (d : Design) (i : nat) :
  _appearance o = Some id ->
  _color o = Some (Some c) ->
  libraries_itemById (materialLibraries h) Voxel.material_library_id = Some l ->
  materialLibraries h !! l = Some lib ->
  activeProduct h = Some d ->
  appearances_itemByName (appearances d)
    (Voxel.colored_appearance_name id c) = Some i ->
  Voxel._get_appearance {| self := o; host := h |} =
    (Return (Some (DesignAppearance i)),
     {| self := o;
        host := called (lookup_calls id ++
                  [Appearances_itemByName (Voxel.colored_appearance_name id c)])
                  h |}).
Proof.
  intros Ha Hc Hl Hlib Hd Hi. destruct c as [[[r g] b] a].
  unfold Voxel._get_appearance, called, lookup_calls.
  py_run. py_exec. py_done.
Qed.

(** With a color and no appearance of the derived name in the design, a copy
    of the base appearance is added under that name and its albedo is set to
    the color. *)
Lemma get_appearance_new (o : VoxelObj) (h : Host) (id : string)
    (c : Color) (l : nat) (lib : MaterialLibrary) (d : Design) (j : nat)
    (base : Appearance) (albedo : Color) :
  _appearance o = Some id ->
  _color o = Some (Some c) ->
  libraries_itemById (materialLibraries h) Voxel.material_library_id = Some l ->
  materialLibraries h !! l = Some lib ->
  activeProduct h = Some d ->
  appearances_itemByName (appearances d)
    (Voxel.colored_appearance_name id c) = None ->
  appearances_itemById (lib_appearances lib) id = Some j ->
  lib_appearances lib !! j = Some base ->
  app_albedo base = Some albedo ->
  let name := Voxel.colored_appearance_name id c in
  let new := DesignAppearance (List.length (appearances d)) in
  Voxel._get_appearance {| self := o; host := h |} =
    (Return (Some new),
     {| self := o;
        host :=
          called (lookup_calls id ++
                    [Appearances_itemByName name;
                     Appearances_addByCopy (Some (LibraryAppearance l j)) name;
                     Color_create c.1.1.1 c.1.1.2 c.1.2 c.2;
                     AppearanceProperties_itemById "surface_albedo";
                     Property_set_value new c])
            (set_activeProduct
               (Some (set_appearances
                  (appearances d ++
                     [{| app_id := app_id base; app_name := name;
                         app_albedo := Some c |}]) d)) h) |}).
Proof.
  intros Ha Hc Hl Hlib Hd Hi Hj Hbase Halb. destruct c as [[[r g] b] a].
  intros name new. subst name new.
  unfold Voxel._get_appearance, called, lookup_calls.
  py_run. py_exec. unfold appearance_at. py_exec.
  rewrite lookup_last. py_exec. rewrite lookup_last. py_exec.
  rewrite insert_last. py_done.
Qed.

(** *** Appearance resolution as a relation *)

Lemma set_activeProduct_same (h : Host) :
  set_activeProduct (activeProduct h) h = h.
Proof. destruct h; reflexivity. Qed.

(** A resolution is a run. *)
Lemma resolution_run (o : VoxelObj) (h : Host) id col r d' cs :
  _appearance o = Some id ->
  _color o = Some col ->
  resolution (materialLibraries h) id col (activeProduct h) r d' cs ->
  Voxel._get_appearance {| self := o; host := h |} =
    (Return r, {| self := o; host := called cs (set_activeProduct d' h) |}).
Proof.
  intros Ha Hc Hres.
  inversion Hres; subst.
  - rewrite set_activeProduct_same.
    eapply get_appearance_base; eassumption.
  - match goal with H : Some _ = activeProduct h |- _ =>
      rewrite H, set_activeProduct_same; symmetry in H end.
    eapply get_appearance_existing; eassumption.
  - match goal with H : Some _ = activeProduct h |- _ => symmetry in H end.
    eapply get_appearance_new; eassumption.
Qed.

(** Every run that returns is a resolution. *)
Lemma run_resolution (o : VoxelObj) (h : Host) r w' :
  Voxel._get_appearance {| self := o; host := h |} = (Return r, w') ->
  exists id col d' cs,
    _appearance o = Some id /\ _color o = Some col /\
    resolution (materialLibraries h) id col (activeProduct h) r d' cs /\
    w' = {| self := o; host := called cs (set_activeProduct d' h) |}.
Proof.
  intros Hrun.
  destruct (_appearance o) as [id|] eqn:Ha; cycle 1.
  { revert Hrun. unfold Voxel._get_appearance. py_run.
    repeat (py_exec; try py_case); discriminate. }
  destruct (_color o) as [col|] eqn:Hc; cycle 1.
  { revert Hrun. unfold Voxel._get_appearance. py_run.
    repeat (py_exec; try py_case); discriminate. }
  destruct (libraries_itemById (materialLibraries h)
              Voxel.material_library_id) as [l|] eqn:Hl; cycle 1.
  { revert Hrun. unfold Voxel._get_appearance. py_run.
    py_exec. discriminate. }
  destruct (index_of_Some _ _ _ Hl) as (lib & Hlib & _).
  exists id, col.
  destruct col as [c|].
  - destruct (activeProduct h) as [d|] eqn:Hd; cycle 1.
    { revert Hrun. unfold Voxel._get_appearance. py_run.
      destruct c as [[[? ?] ?] ?]. py_exec. discriminate. }
    destruct (appearances_itemByName (appearances d)
                (Voxel.colored_appearance_name id c)) as [i|] eqn:Hi.
    + erewrite get_appearance_existing in Hrun by eassumption.
      injection Hrun as <- <-.
      exists (Some d), (lookup_calls id ++
        [Appearances_itemByName (Voxel.colored_appearance_name id c)])%list.
      repeat split.
      * eapply resolution_existing; eassumption.
      * rewrite <- Hd, set_activeProduct_same. reflexivity.
    + destruct (appearances_itemById (lib_appearances lib) id)
        as [j|] eqn:Hj; cycle 1.
      { revert Hrun. unfold Voxel._get_appearance. py_run.
        destruct c as [[[? ?] ?] ?]. py_exec. discriminate. }
      destruct (index_of_Some _ _ _ Hj) as (base & Hbase & _).
      destruct (app_albedo base) as [albedo|] eqn:Halb; cycle 1.
      { revert Hrun. unfold Voxel._get_appearance. py_run.
        destruct c as [[[? ?] ?] ?]. py_exec. unfold appearance_at.
        py_exec. rewrite lookup_last. py_exec. discriminate. }
      erewrite get_appearance_new in Hrun by eassumption.
      injection Hrun as <- <-.
      eexists _, _. repeat split.
      eapply resolution_new; eassumption.
  - erewrite get_appearance_base in Hrun by eassumption.
    injection Hrun as <- <-.
    exists (activeProduct h), (lookup_calls id). repeat split.
    eapply resolution_base; eassumption.
Qed.

(** Resolving again, in the design the first resolution left, returns the
    same appearance, leaves the design as it is and copies nothing. *)
Lemma resolution_again libs id col d r d' cs :
  resolution libs id col d r d' cs ->
  exists cs',
    resolution libs id col d' r d' cs' /\
    forall source name, ~ In (Appearances_addByCopy source name) cs'.
Proof.
  intros Hres. inversion Hres; subst.
  - exists (lookup_calls id). split; [assumption|].
    intros source name. simpl. intuition discriminate.
  - eexists. split; [eassumption|].
    intros source name. simpl. intuition discriminate.
  - eexists. split.
    + eapply resolution_existing; [eassumption | eassumption |].
      simpl. apply index_of_app_new; [assumption|].
      simpl. apply String.eqb_refl.
    + intros source name. simpl. intuition discriminate.
Qed.

Lemma can_resolve_resolution libs d id col :
  can_resolve libs d id col = true ->
  exists r d' cs, resolution libs id col d r d' cs.
Proof.
  unfold can_resolve.
  destruct (libraries_itemById libs Voxel.material_library_id)
    as [l|] eqn:Hl; [|discriminate].
  destruct (index_of_Some _ _ _ Hl) as (lib & Hlib & _).
  destruct col as [c|]; cycle 1.
  { intros _. do 3 eexists. eapply resolution_base; eassumption. }
  destruct d as [dsg|]; [|discriminate].
  destruct (appearances_itemByName (appearances dsg)
              (Voxel.colored_appearance_name id c)) as [i|] eqn:Hi.
  { intros _. do 3 eexists. eapply resolution_existing; eassumption. }
  rewrite Hlib. simpl.
  destruct (appearances_itemById (lib_appearances lib) id)
    as [j|] eqn:Hj; simpl; [|discriminate].
  destruct (lib_appearances lib !! j) as [base|] eqn:Hbase;
    simpl; [|discriminate].
  destruct (app_albedo base) as [albedo|] eqn:Halb; [|discriminate].
  intros _. do 3 eexists. eapply resolution_new; eassumption.
Qed.

(** *** Building a body *)

Lemma cube_create_body_run (o : VoxelObj) (h : Host)
    n c p s col id cd r d' cs :
  _name o = Some n -> _component o = Some c -> _center o = Some p ->
  _side_length o = Some s -> _color o = Some col ->
  _appearance o = Some id ->
  components h !! c = Some cd ->
  kernel_accepts h (Box p (1, 0, 0) (0, 1, 0) s s s) = true ->
  resolution (materialLibraries h) id col (activeProduct h) r d' cs ->
  DirectCube._create_body {| self := o; host := h |} =
    (Return (List.length (bodies h)),
     {| self := o; host := with_new_body h DirectCube c p s n r d' cs |}).
Proof.
  intros Hn Hc Hp Hs Hcol Hid Hcd Hk Hres.
  unfold DirectCube._create_body, with_new_body. py_run. py_exec.
  erewrite resolution_run by (cbn; eassumption).
  unfold called. py_run. rewrite lookup_last. py_exec.
  rewrite insert_last. py_exec. rewrite lookup_last. py_exec.
  rewrite insert_last. py_done.
Qed.

Lemma sphere_create_body_run (o : VoxelObj) (h : Host)
    n c p s col id cd r d' cs :
  _name o = Some n -> _component o = Some c -> _center o = Some p ->
  _side_length o = Some s -> _color o = Some col ->
  _appearance o = Some id ->
  components h !! c = Some cd ->
  kernel_accepts h (Sphere p (s / 2)%float) = true ->
  resolution (materialLibraries h) id col (activeProduct h) r d' cs ->
  DirectSphere._create_body {| self := o; host := h |} =
    (Return (List.length (bodies h)),
     {| self := o; host := with_new_body h DirectSphere c p s n r d' cs |}).
Proof.
  intros Hn Hc Hp Hs Hcol Hid Hcd Hk Hres.
  unfold DirectSphere._create_body, with_new_body. py_run. py_exec.
  erewrite resolution_run by (cbn; eassumption).
  unfold called. py_run. rewrite lookup_last. py_exec.
  rewrite insert_last. py_exec. rewrite lookup_last. py_exec.
  rewrite insert_last. py_done.
Qed.

Lemma create_body_run (o : VoxelObj) (h : Host) n c p s col id cd r d' cs :
  _name o = Some n -> _component o = Some c -> _center o = Some p ->
  _side_length o = Some s -> _color o = Some col ->
  _appearance o = Some id ->
  components h !! c = Some cd ->
  kernel_accepts h (solid (class_of o) p s) = true ->
  resolution (materialLibraries h) id col (activeProduct h) r d' cs ->
  self__create_body {| self := o; host := h |} =
    (Return (List.length (bodies h)),
     {| self := o;
        host := with_new_body h (class_of o) c p s n r d' cs |}).
Proof.
  intros Hn Hc Hp Hs Hcol Hid Hcd Hk Hres.
  unfold self__create_body, methods_of_self, bind, get_self.
  cbn [self]. destruct (class_of o); simpl in Hk.
  - eapply cube_create_body_run; eassumption.
  - eapply sphere_create_body_run; eassumption.
Qed.

(** *** Deleting and rebuilding *)

Lemma delete_run (o : VoxelObj) (h : Host) (b : BodyRef) (bd : BRepBody) :
  _body o = Some (Some b) ->
  body_at h b = Some bd ->
  Voxel.delete {| self := o; host := h |} =
    (Return tt, {| self := with_body None o; host := without_body b h |}).
Proof.
  intros Hb Hbd. unfold Voxel.delete, without_body, called.
  py_run. py_exec. reflexivity.
Qed.

Lemma body_at_without_body (b b' : BodyRef) (h : Host) :
  body_at (without_body b h) b' =
    if decide (b = b') then None else body_at h b'.
Proof.
  unfold body_at, without_body. simpl.
  destruct (decide (b = b')) as [<-|Hne].
  - destruct (bodies h !! b) eqn:E.
    + rewrite list_lookup_insert_eq; [reflexivity|].
      eapply lookup_lt_Some; eassumption.
    + rewrite list_insert_ge; [rewrite E; reflexivity|].
      apply lookup_ge_None in E. lia.
  - rewrite list_lookup_insert_ne by assumption. reflexivity.
Qed.

Lemma recreate_body_run (o : VoxelObj) (h : Host)
    b bd n c p s col id cd r d' cs :
  _body o = Some (Some b) ->
  body_at h b = Some bd ->
  _name o = Some n -> _component o = Some c -> _center o = Some p ->
  _side_length o = Some s -> _color o = Some col ->
  _appearance o = Some id ->
  components h !! c = Some cd ->
  kernel_accepts h (solid (class_of o) p s) = true ->
  resolution (materialLibraries h) id col (activeProduct h) r d' cs ->
  Voxel.recreate_body {| self := o; host := h |} =
    (Return tt,
     {| self := with_body (Some (List.length (bodies h))) o;
        host := with_new_body (without_body b h)
                  (class_of o) c p s n r d' cs |}).
Proof.
  intros Hb Hbd Hn Hc Hp Hs Hcol Hid Hcd Hk Hres.
  unfold Voxel.recreate_body. unfold bind at 1.
  erewrite delete_run by eassumption.
  unfold bind at 1.
  erewrite create_body_run; try (simpl; eassumption).
  unfold without_body. py_run. rewrite length_insert. reflexivity.
Qed.

(** *** What a computation leaves alone *)

Section Keeps.
Context {X : Type} (f : VoxelObj -> X).

Lemma keeps_ret {A} (a : A) : keeps f (ret a).
Proof. intros w. reflexivity. Qed.

Lemma keeps_raise {A} (e : Exception) : keeps f (@raise A e).
Proof. intros w. reflexivity. Qed.

Lemma keeps_bind {A B} (m : Py A) (k : A -> Py B) :
  keeps f m -> (forall a, keeps f (k a)) -> keeps f (bind m k).
Proof.
  intros Hm Hk w. unfold bind. specialize (Hm w).
  destruct (m w) as [[a|e] w1]; simpl in *.
  - rewrite Hk. exact Hm.
  - exact Hm.
Qed.

Lemma keeps_get_self : keeps f get_self.
Proof. intros w. reflexivity. Qed.

Lemma keeps_get_host : keeps f get_host.
Proof. intros w. reflexivity. Qed.

Lemma keeps_put_host (h : Host) : keeps f (put_host h).
Proof. intros w. reflexivity. Qed.

Lemma keeps_setattr (update : VoxelObj -> VoxelObj) :
  (forall o, f (update o) = f o) -> keeps f (setattr update).
Proof. intros Hu w. simpl. apply Hu. Qed.

Lemma keeps_get_appearance : keeps f Voxel._get_appearance.
Proof.
  intros w. destruct (get_appearance_frame w) as (-> & _). reflexivity.
Qed.

End Keeps.

(** Walks through a computation: binds, branches, and at the leaves the
    facts above. *)
Ltac keeps_step :=
  first
    [ apply keeps_ret | apply keeps_raise | apply keeps_get_self
    | apply keeps_get_host | apply keeps_put_host
    | apply keeps_get_appearance
    | apply keeps_setattr; intros ?; reflexivity
    | apply keeps_bind; [|intros ?]
    | match goal with
      | |- keeps _ (match ?x with _ => _ end) => destruct x
      | |- keeps _ (let (_, _) := ?x in _) => destruct x
      end
    | solve [auto with keeps] ].

Ltac keeps_unfold :=
  unfold getattr, deref,
    setattr_name, setattr_component, setattr_center, setattr_side_length,
    setattr_color, setattr_appearance, setattr_body,
    adsk.Application_get_activeProduct_cast, adsk.Design_designType,
    adsk.materialLibraries_itemById, adsk.library_appearances_itemById,
    adsk.design_appearances_itemByName, adsk.design_appearances_addByCopy,
    adsk.appearanceProperties_itemById, adsk.Color_create_,
    adsk.property_set_value, adsk.TemporaryBRepManager_get_,
    adsk.Point3D_create_, adsk.Vector3D_create_,
    adsk.OrientedBoundingBox3D_create_, adsk.createBox, adsk.createSphere,
    adsk.bRepBodies, adsk.bRepBodies_add, adsk.body_set_appearance,
    adsk.body_set_name, adsk.deleteMe, adsk.component_id,
    adsk.component_name, adsk.log.

Ltac keeps_tac := keeps_unfold; repeat keeps_step.

Lemma keeps_delete {X} (f : VoxelObj -> X) :
  (forall v o, f (with_body v o) = f o) -> keeps f Voxel.delete.
Proof.
  intros Hb. unfold Voxel.delete. keeps_unfold.
  repeat first [ apply keeps_setattr; apply Hb | keeps_step ].
Qed.

Lemma keeps_cube_create_body {X} (f : VoxelObj -> X) :
  keeps f DirectCube._create_body.
Proof. unfold DirectCube._create_body. keeps_tac. Qed.

Lemma keeps_sphere_create_body {X} (f : VoxelObj -> X) :
  keeps f DirectSphere._create_body.
Proof. unfold DirectSphere._create_body. keeps_tac. Qed.

Lemma keeps_create_body {X} (f : VoxelObj -> X) : keeps f self__create_body.
Proof.
  unfold self__create_body, methods_of_self.
  apply keeps_bind; [apply keeps_get_self|]. intros o.
  destruct (class_of o);
    [apply keeps_cube_create_body | apply keeps_sphere_create_body].
Qed.

Lemma keeps_recreate_body {X} (f : VoxelObj -> X) :
  (forall v o, f (with_body v o) = f o) -> keeps f Voxel.recreate_body.
Proof.
  intros Hb. unfold Voxel.recreate_body.
  apply keeps_bind; [apply keeps_delete; exact Hb|]. intros _.
  apply keeps_bind; [apply keeps_create_body|]. intros b.
  apply keeps_setattr. apply Hb.
Qed.

(** *** The operations of a concrete voxel *)

Lemma keeps_perform {X} (f : VoxelObj -> X) (op : Operation) :
  (forall u o, f (with_name u o) = f o) ->
  (forall u o, f (with_component u o) = f o) ->
  (forall u o, f (with_center u o) = f o) ->
  (forall u o, f (with_side_length u o) = f o) ->
  (forall u o, f (with_color u o) = f o) ->
  (forall u o, f (with_appearance u o) = f o) ->
  (forall u o, f (with_body u o) = f o) ->
  keeps f (perform op).
Proof.
  intros Hn Hc Hp Hs Hcol Ha Hb.
  pose proof (keeps_recreate_body f Hb) as Hre.
  pose proof (keeps_delete f Hb) as Hdel.
  destruct op; simpl; try assumption;
    unfold DirectVoxel.name_setter, DirectVoxel.color_setter,
      DirectVoxel.appearance_setter, DirectVoxel.component_setter,
      DirectVoxel.center_setter, DirectVoxel.side_length_setter;
    keeps_unfold;
    repeat first
      [ assumption
      | apply keeps_setattr; solve [auto]
      | match goal with
        | |- keeps _ (if ?b then _ else _) => destruct b
        end
      | keeps_step ].
Qed.

(** No operation changes the class of the object. *)
Lemma script_class (ops : list Operation) (w : World) :
  class_of (self (script ops w)) = class_of (self w).
Proof.
  revert w. induction ops as [|op ops IH]; intros w; simpl; [reflexivity|].
  rewrite IH. apply (keeps_perform class_of); intros; reflexivity.
Qed.

(** The setters of the cosmetic attributes do not assign [_body]. *)
Lemma keeps_body_color_setter (c : option Color) :
  keeps _body (DirectVoxel.color_setter c).
Proof.
  unfold DirectVoxel.color_setter. keeps_unfold.
  repeat first
    [ match goal with
      | |- keeps _ (if ?b then _ else _) => destruct b
      end
    | keeps_step ].
Qed.

Lemma keeps_body_appearance_setter (a : string) :
  keeps _body (DirectVoxel.appearance_setter a).
Proof.
  unfold DirectVoxel.appearance_setter. keeps_unfold.
  repeat first
    [ match goal with
      | |- keeps _ (if ?b then _ else _) => destruct b
      end
    | keeps_step ].
Qed.

Lemma keeps_body_name_setter (n : string) :
  keeps _body (DirectVoxel.name_setter n).
Proof.
  unfold DirectVoxel.name_setter. keeps_unfold.
  repeat first
    [ match goal with
      | |- keeps _ (if ?b then _ else _) => destruct b
      end
    | keeps_step ].
Qed.

(** *** The setters, when they have something to do *)

Lemma color_setter_run (o : VoxelObj) (h : Host) b bd col new id r d' cs :
  _body o = Some (Some b) ->
  body_at h b = Some bd ->
  _color o = Some col ->
  _appearance o = Some id ->
  opt_color_eqb col new = false ->
  resolution (materialLibraries h) id new (activeProduct h) r d' cs ->
  DirectVoxel.color_setter new {| self := o; host := h |} =
    (Return tt,
     {| self := with_color new o;
        host := with_appearance_on b bd r d' cs h |}).
Proof.
  intros Hb Hbd Hcol Hid Hne Hres.
  unfold DirectVoxel.color_setter, with_appearance_on, called.
  py_run. py_exec. rewrite Hne. py_simpl.
  erewrite resolution_run by (cbn; first [eassumption | reflexivity]).
  unfold called. py_run. py_exec. py_done.
Qed.

Lemma appearance_setter_run (o : VoxelObj) (h : Host)
    b bd col new id r d' cs :
  _body o = Some (Some b) ->
  body_at h b = Some bd ->
  _color o = Some col ->
  _appearance o = Some id ->
  String.eqb new id = false ->
  resolution (materialLibraries h) new col (activeProduct h) r d' cs ->
  DirectVoxel.appearance_setter new {| self := o; host := h |} =
    (Return tt,
     {| self := with_appearance new o;
        host := with_appearance_on b bd r d' cs h |}).
Proof.
  intros Hb Hbd Hcol Hid Hne Hres.
  unfold DirectVoxel.appearance_setter, with_appearance_on, called.
  py_run. py_exec. rewrite Hne. py_simpl.
  erewrite resolution_run by (cbn; first [eassumption | reflexivity]).
  unfold called. py_run. py_exec. py_done.
Qed.

Lemma name_setter_run (o : VoxelObj) (h : Host) b bd n new :
  _body o = Some (Some b) ->
  body_at h b = Some bd ->
  _name o = Some n ->
  String.eqb n new = false ->
  DirectVoxel.name_setter new {| self := o; host := h |} =
    (Return tt,
     {| self := with_name new o;
        host := set_bodies
                  (<[b := Some (set_body_name (Some new) bd)]> (bodies h))
                  (called [BRepBody_set_name b new] h) |}).
Proof.
  intros Hb Hbd Hn Hne. unfold DirectVoxel.name_setter, called.
  py_run. py_exec. rewrite Hne. py_exec. py_done.
Qed.

Lemma center_setter_run (o : VoxelObj) (h : Host)
    b bd n c p new s col id cd r d' cs :
  _body o = Some (Some b) ->
  body_at h b = Some bd ->
  _name o = Some n -> _component o = Some c -> _center o = Some p ->
  _side_length o = Some s -> _color o = Some col ->
  _appearance o = Some id ->
  components h !! c = Some cd ->
  point_eqb p new = false ->
  kernel_accepts h (solid (class_of o) new s) = true ->
  resolution (materialLibraries h) id col (activeProduct h) r d' cs ->
  DirectVoxel.center_setter new {| self := o; host := h |} =
    (Return tt,
     {| self := with_body (Some (List.length (bodies h))) (with_center new o);
        host := with_new_body (without_body b h)
                  (class_of o) c new s n r d' cs |}).
Proof.
  intros Hb Hbd Hn Hc Hp Hs Hcol Hid Hcd Hne Hk Hres.
  unfold DirectVoxel.center_setter. py_run. py_exec. rewrite Hne. py_simpl.
  erewrite recreate_body_run;
    [reflexivity | cbn; first [eassumption | reflexivity] ..].
Qed.

Lemma side_length_setter_run (o : VoxelObj) (h : Host)
    b bd n c p new s col id cd r d' cs :
  _body o = Some (Some b) ->
  body_at h b = Some bd ->
  _name o = Some n -> _component o = Some c -> _center o = Some p ->
  _side_length o = Some s -> _color o = Some col ->
  _appearance o = Some id ->
  components h !! c = Some cd ->
  PrimFloat.eqb new s = false ->
  kernel_accepts h (solid (class_of o) p new) = true ->
  resolution (materialLibraries h) id col (activeProduct h) r d' cs ->
  DirectVoxel.side_length_setter new {| self := o; host := h |} =
    (Return tt,
     {| self := with_body (Some (List.length (bodies h)))
                  (with_side_length new o);
        host := with_new_body (without_body b h)
                  (class_of o) c p new n r d' cs |}).
Proof.
  intros Hb Hbd Hn Hc Hp Hs Hcol Hid Hcd Hne Hk Hres.
  unfold DirectVoxel.side_length_setter. py_run. py_exec.
  rewrite Hne. py_simpl.
  erewrite recreate_body_run;
    [reflexivity | cbn; first [eassumption | reflexivity] ..].
Qed.

Lemma component_setter_run (o : VoxelObj) (h : Host)
    b bd n c new p s col id cd cd' r d' cs :
  _body o = Some (Some b) ->
  body_at h b = Some bd ->
  _name o = Some n -> _component o = Some c -> _center o = Some p ->
  _side_length o = Some s -> _color o = Some col ->
  _appearance o = Some id ->
  components h !! c = Some cd ->
  components h !! new = Some cd' ->
  String.eqb (comp_id cd') (comp_id cd) = false ->
  kernel_accepts h (solid (class_of o) p s) = true ->
  resolution (materialLibraries h) id col (activeProduct h) r d' cs ->
  DirectVoxel.component_setter new {| self := o; host := h |} =
    (Return tt,
     {| self := with_body (Some (List.length (bodies h)))
                  (with_component new o);
        host := with_new_body (without_body b h)
                  (class_of o) new p s n r d' cs |}).
Proof.
  intros Hb Hbd Hn Hc Hp Hs Hcol Hid Hcd Hcd' Hne Hk Hres.
  unfold DirectVoxel.component_setter. py_run. py_exec.
  rewrite Hne. py_simpl.
  erewrite recreate_body_run;
    [reflexivity | cbn; first [eassumption | reflexivity] ..].
Qed.

(** *** What the setters compare and store *)

Lemma point_eqb_refl (p : Point) : point_eqb p p = true.
Proof.
  destruct p as [[x y] z]. unfold point_eqb. rewrite !Z.eqb_refl. reflexivity.
Qed.

Lemma color_eqb_refl (c : Color) : color_eqb c c = true.
Proof.
  destruct c as [[[r g] b] o]. unfold color_eqb. rewrite !Z.eqb_refl.
  reflexivity.
Qed.

Lemma opt_color_eqb_refl (c : option Color) : opt_color_eqb c c = true.
Proof. destruct c as [c|]; simpl; [apply color_eqb_refl | reflexivity]. Qed.

Lemma point_eqb_eq (p q : Point) : point_eqb p q = true -> p = q.
Proof.
  destruct p as [[x1 y1] z1], q as [[x2 y2] z2]. unfold point_eqb.
  rewrite !andb_true_iff, !Z.eqb_eq. intros [[-> ->] ->]. reflexivity.
Qed.

Lemma opt_color_eqb_eq (c d : option Color) : opt_color_eqb c d = true -> c = d.
Proof.
  destruct c as [[[[r1 g1] b1] o1]|], d as [[[[r2 g2] b2] o2]|];
    simpl; try discriminate; [|reflexivity].
  rewrite !andb_true_iff, !Z.eqb_eq. intros [[[-> ->] ->] ->]. reflexivity.
Qed.

(** Goes past a call of [_get_appearance] in a goal about the object. *)
Ltac after_get_appearance :=
  match goal with
  | |- context [Voxel._get_appearance ?W] =>
      let Hself := fresh "Hself" in
      destruct (get_appearance_frame W) as (Hself & _);
      destruct (Voxel._get_appearance W) as [[? | ?] ?];
      cbn [fst snd self host] in *; rewrite ?Hself;
      py_cases; rewrite ?Hself; reflexivity
  end.

(** After a setter, whether it returned or raised, the slot holds the value
    assigned - or, for the side length and the component, the old value
    when the new one compared equal to it. *)
Lemma setters_store
    (w : World) (n : string) (c : CompRef) (cd : Component) (p : Point)
    (s : float) (col : option Color) (id : string) :
  _name (self w) = Some n ->
  _component (self w) = Some c ->
  _center (self w) = Some p ->
  _side_length (self w) = Some s ->
  _color (self w) = Some col ->
  _appearance (self w) = Some id ->
  components (host w) !! c = Some cd ->
  (forall new,
     _name (self (snd (DirectVoxel.name_setter new w))) = Some new) /\
  (forall new,
     _color (self (snd (DirectVoxel.color_setter new w))) = Some new) /\
  (forall new,
     _appearance (self (snd (DirectVoxel.appearance_setter new w)))
       = Some new) /\
  (forall new,
     _center (self (snd (DirectVoxel.center_setter new w))) = Some new) /\
  (forall new,
     let s' := _side_length
                 (self (snd (DirectVoxel.side_length_setter new w))) in
     s' = Some new \/ (PrimFloat.eqb new s = true /\ s' = Some s)) /\
  (forall new cd',
     components (host w) !! new = Some cd' ->
     let c' := _component
                 (self (snd (DirectVoxel.component_setter new w))) in
     c' = Some new \/ (comp_id cd' = comp_id cd /\ c' = Some c)).
Proof.
  intros Hn Hc Hp Hs Hcol Hid Hcd. destruct w as [o h].
  cbn [self host] in *.
  split; [|split; [|split; [|split; [|split]]]].
  - intros new. destruct (String.eqb n new) eqn:E.
    + apply String.eqb_eq in E. subst new.
      unfold DirectVoxel.name_setter. py_run. py_exec. first [reflexivity | exact Hn].
    + unfold DirectVoxel.name_setter. py_run. py_exec. rewrite E.
      py_cases; reflexivity.
  - intros new. destruct (opt_color_eqb col new) eqn:E.
    + apply opt_color_eqb_eq in E. subst new.
      unfold DirectVoxel.color_setter. py_run. py_exec.
      rewrite opt_color_eqb_refl. first [reflexivity | exact Hcol].
    + unfold DirectVoxel.color_setter. py_run. py_exec. rewrite E.
      py_simpl. after_get_appearance.
  - intros new. destruct (String.eqb new id) eqn:E.
    + apply String.eqb_eq in E. subst new.
      unfold DirectVoxel.appearance_setter. py_run. py_exec. first [reflexivity | exact Hid].
    + unfold DirectVoxel.appearance_setter. py_run. py_exec. rewrite E.
      py_simpl. after_get_appearance.
  - intros new. destruct (point_eqb p new) eqn:E.
    + apply point_eqb_eq in E. subst new.
      unfold DirectVoxel.center_setter. py_run. py_exec.
      rewrite point_eqb_refl. first [reflexivity | exact Hp].
    + unfold DirectVoxel.center_setter. py_run. py_exec. rewrite E.
      py_simpl. rewrite (keeps_recreate_body _center); reflexivity.
  - intros new. cbv zeta. destruct (PrimFloat.eqb new s) eqn:E.
    + right. split; [reflexivity|].
      unfold DirectVoxel.side_length_setter. py_run. py_exec. rewrite E.
      first [reflexivity | exact Hs].
    + left. unfold DirectVoxel.side_length_setter. py_run. py_exec.
      rewrite E. py_simpl.
      rewrite (keeps_recreate_body _side_length); reflexivity.
  - intros new cd' Hcd'. cbv zeta.
    destruct (String.eqb (comp_id cd') (comp_id cd)) eqn:E.
    + right. apply String.eqb_eq in E. split; [exact E|].
      unfold DirectVoxel.component_setter. py_run. py_exec. rewrite E.
      py_exec. first [reflexivity | exact Hc].
    + left. unfold DirectVoxel.component_setter. py_run. py_exec.
      rewrite E. py_simpl.
      rewrite (keeps_recreate_body _component); reflexivity.
Qed.

(** ** The properties *)

(** *** Serialization *)

Lemma shape_run (w : World) :
  self_shape w = (Return (shape_name (class_of (self w))), w).
Proof.
  unfold self_shape, methods_of_self, bind, get_self.
  destruct (class_of (self w)); reflexivity.
Qed.

(** C1.  [serialize] returns the stored attributes under their keys:
    [Voxel.serialize] the name of the stored component, the stored center,
    side length, color and appearance, and the shape of the object's class;
    [DirectVoxel.serialize] the same entries followed by the stored name.
    Neither changes the voxel or the host. *)
Theorem serialize_returns_stored_attributes
    (w : World) (n : string) (c : CompRef) (cd : Component) (p : Point)
    (s : float) (col : option Color) (id : string) :
  _name (self w) = Some n ->
  _component (self w) = Some c ->
  _center (self w) = Some p ->
  _side_length (self w) = Some s ->
  _color (self w) = Some col ->
  _appearance (self w) = Some id ->
  components (host w) !! c = Some cd ->
  Voxel.serialize w =
    (Return [("component_name", PyStr (comp_name cd));
             ("center", py_point p);
             ("side_length", PyFloat s);
             ("color", py_color col);
             ("appearance", PyStr id);
             ("shape", PyStr (match class_of (self w) with
                              | DirectCube => "cube"
                              | DirectSphere => "sphere"
                              end))], w) /\
  DirectVoxel.serialize w =
    (Return [("component_name", PyStr (comp_name cd));
             ("center", py_point p);
             ("side_length", PyFloat s);
             ("color", py_color col);
             ("appearance", PyStr id);
             ("shape", PyStr (match class_of (self w) with
                              | DirectCube => "cube"
                              | DirectSphere => "sphere"
                              end));
             ("name", PyStr n)], w).
Proof.
  intros Hn Hc Hp Hs Hcol Hid Hcd.
  assert (Hbase : Voxel.serialize w =
    (Return [("component_name", PyStr (comp_name cd));
             ("center", py_point p);
             ("side_length", PyFloat s);
             ("color", py_color col);
             ("appearance", PyStr id);
             ("shape", PyStr (shape_name (class_of (self w))))], w)).
  { destruct w as [o h]. unfold Voxel.serialize, Voxel.component,
      Voxel.center, Voxel.side_length, Voxel.color, Voxel.appearance.
    py_run. py_exec. rewrite shape_run. reflexivity. }
  split; [exact Hbase|].
  unfold DirectVoxel.serialize, DirectVoxel.name. unfold bind at 1.
  rewrite Hbase. destruct w as [o h]. py_run. py_exec. reflexivity.
Qed.

Lemma serialize_returns_stored_attributes_witness :
  DirectVoxel.serialize Example.red_cube =
    (Return [("component_name", PyStr "Voxels");
             ("center", PyTuple [1; 2; 3]);
             ("side_length", PyFloat 2);
             ("color", PyTuple [255; 0; 0; 255]);
             ("appearance", PyStr "Prism-256");
             ("shape", PyStr "cube");
             ("name", PyStr "Cube")], Example.red_cube).
Proof.
  exact (proj2 (serialize_returns_stored_attributes Example.red_cube
    "Cube" 0%nat {| comp_id := "root"; comp_name := "Voxels" |}
    (1, 2, 3) 2%float (Some Example.red) "Prism-256"
    eq_refl eq_refl eq_refl eq_refl eq_refl eq_refl eq_refl)).
Defined.

(** *** Construction in a history-based design *)

(** C2, as the claim states it, fails: in a history-based design the
    constructor raises, but by then the host has been called twice, to get
    the application and to cast its active product to a design. *)
Lemma construct_parametric_calls_host :
  let w' := snd (construct DirectCube 0%nat (1, 2, 3) 2%float None
                   "Prism-256" "Cube" Example.parametric_document) in
  fst (construct DirectCube 0%nat (1, 2, 3) 2%float None
         "Prism-256" "Cube" Example.parametric_document)
    = Raise parametric_error /\
  calls (host w') = [Application_get; Design_cast] /\
  calls (host w') <> calls Example.parametric_document.
Proof.
  cbv zeta. split; [reflexivity|]. split; [reflexivity|].
  vm_compute. discriminate.
Qed.

(** C2, amended.  In a history-based design the constructor of either
    concrete class raises the runtime error; the only host calls made are
    the two that obtain the design, no attribute of the object has been
    assigned, and the host is otherwise as it was: no body has been
    created. *)
Theorem construct_parametric_raises
    (cls : VoxelClass) (component : CompRef) (center : Point)
    (side_length : float) (color : option Color) (appearance name : string)
    (h : Host) (d : Design) :
  activeProduct h = Some d ->
  designType d = ParametricDesignType ->
  construct cls component center side_length color appearance name h =
    (Raise parametric_error,
     {| self := new_object cls;
        host := called [Application_get; Design_cast] h |}).
Proof.
  intros Hd Hty. unfold construct, DirectVoxel.__init__, called.
  py_run. py_exec. py_done.
Qed.

Lemma construct_parametric_raises_witness :
  construct DirectSphere 1%nat (0, 0, 0) 1%float (Some Example.red)
    "Prism-089" "Sphere" Example.parametric_document =
    (Raise parametric_error,
     {| self := new_object DirectSphere;
        host := called [Application_get; Design_cast]
                  Example.parametric_document |}).
Proof.
  exact (construct_parametric_raises DirectSphere 1%nat (0, 0, 0) 1%float
           (Some Example.red) "Prism-089" "Sphere"
           Example.parametric_document
           {| designType := ParametricDesignType; appearances := [] |}
           eq_refl eq_refl).
Defined.

(** *** Deleting *)

(** C7.  On a voxel with a live body, [delete] deletes the body in the host
    and stores [None] as the voxel's body; a second [delete] does not
    succeed: it raises on the cleared reference and changes nothing. *)
Theorem delete_clears_body (w : World) (b : BodyRef) (bd : BRepBody) :
  _body (self w) = Some (Some b) ->
  body_at (host w) b = Some bd ->
  exists w',
    Voxel.delete w = (Return tt, w') /\
    _body (self w') = Some None /\
    body_at (host w') b = None /\
    calls (host w') = (calls (host w) ++ [BRepBody_deleteMe b])%list /\
    Voxel.delete w' = (Raise AttributeError, w').
Proof.
  intros Hb Hbd. destruct w as [o h]. simpl in Hb, Hbd.
  eexists. split; [eapply delete_run; eassumption|].
  split; [reflexivity|]. split.
  { cbn [host]. rewrite body_at_without_body. destruct (decide (b = b)); congruence. }
  split; [reflexivity|].
  unfold Voxel.delete. py_run. reflexivity.
Qed.

Lemma delete_clears_body_witness :
  exists w',
    Voxel.delete Example.red_cube = (Return tt, w') /\
    _body (self w') = Some None /\
    body_at (host w') 0%nat = None /\
    calls (host w') =
      (calls (host Example.red_cube) ++ [BRepBody_deleteMe 0%nat])%list /\
    Voxel.delete w' = (Raise AttributeError, w').
Proof.
  exact (delete_clears_body Example.red_cube 0%nat
    {| body_parent := 0%nat;
       body_geometry := Box (1, 2, 3) (1, 0, 0) (0, 1, 0) 2 2 2;
       body_appearance := Some (DesignAppearance 0);
       body_name := Some "Cube" |} eq_refl eq_refl).
Defined.

(** *** The shape tag *)

(** C8.  [shape] of a [DirectCube] is ["cube"] and of a [DirectSphere]
    ["sphere"], after any sequence of setter calls, rebuilds and deletions,
    whether they succeed or raise. *)
Theorem shape_constant (ops : list Operation) (w : World) :
  (class_of (self w) = DirectCube ->
   fst (self_shape (script ops w)) = Return "cube") /\
  (class_of (self w) = DirectSphere ->
   fst (self_shape (script ops w)) = Return "sphere").
Proof.
  split; intros Hcls; rewrite shape_run, script_class, Hcls; reflexivity.
Qed.

Lemma shape_constant_witness :
  fst (self_shape
         (script [SetCenter (0, 0, 1); SetColor None; SetName "c";
                  SetSideLength 4%float; Delete; SetComponent 1%nat]
            Example.red_cube)) = Return "cube" /\
  fst (self_shape
         (script [SetAppearance "Prism-089"; SetSideLength 1%float]
            Example.plain_sphere)) = Return "sphere".
Proof.
  split.
  - exact (proj1 (shape_constant _ Example.red_cube) eq_refl).
  - exact (proj2 (shape_constant _ Example.plain_sphere) eq_refl).
Defined.

(** *** Assigning what is already there *)

(** C9.  A setter that is given the value the voxel already stores returns
    without doing anything: the object, the host and the host's call log
    are as before.  Equality is Python's [==]; for the side length, a
    float, that is IEEE equality; for the component it is equality of the
    [id] of the two host components, also when they are different
    objects. *)
Theorem setters_noop_on_equal_value
    (w : World) (n : string) (c : CompRef) (cd : Component) (p : Point)
    (s : float) (col : option Color) (id : string) :
  _name (self w) = Some n ->
  _component (self w) = Some c ->
  _center (self w) = Some p ->
  _side_length (self w) = Some s ->
  _color (self w) = Some col ->
  _appearance (self w) = Some id ->
  components (host w) !! c = Some cd ->
  DirectVoxel.name_setter n w = (Return tt, w) /\
  DirectVoxel.color_setter col w = (Return tt, w) /\
  DirectVoxel.appearance_setter id w = (Return tt, w) /\
  DirectVoxel.center_setter p w = (Return tt, w) /\
  (forall s', PrimFloat.eqb s' s = true ->
     DirectVoxel.side_length_setter s' w = (Return tt, w)) /\
  (forall c' cd',
     components (host w) !! c' = Some cd' ->
     comp_id cd' = comp_id cd ->
     DirectVoxel.component_setter c' w = (Return tt, w)).
Proof.
  intros Hn Hc Hp Hs Hcol Hid Hcd. destruct w as [o h]. simpl in *.
  repeat split.
  - unfold DirectVoxel.name_setter. py_run. py_exec. reflexivity.
  - unfold DirectVoxel.color_setter. py_run. py_exec.
    rewrite opt_color_eqb_refl. reflexivity.
  - unfold DirectVoxel.appearance_setter. py_run. py_exec. reflexivity.
  - unfold DirectVoxel.center_setter. py_run. py_exec.
    rewrite point_eqb_refl. reflexivity.
  - intros s' Heq. unfold DirectVoxel.side_length_setter. py_run. py_exec.
    rewrite Heq. reflexivity.
  - intros c' cd' Hcd' Hid'. unfold DirectVoxel.component_setter.
    py_run. py_exec. rewrite Hid'. py_exec. reflexivity.
Qed.

Lemma setters_noop_on_equal_value_witness :
  DirectVoxel.name_setter "Cube" Example.red_cube
    = (Return tt, Example.red_cube) /\
  DirectVoxel.color_setter (Some Example.red) Example.red_cube
    = (Return tt, Example.red_cube) /\
  DirectVoxel.appearance_setter "Prism-256" Example.red_cube
    = (Return tt, Example.red_cube) /\
  DirectVoxel.center_setter (1, 2, 3) Example.red_cube
    = (Return tt, Example.red_cube) /\
  (forall s', PrimFloat.eqb s' 2 = true ->
     DirectVoxel.side_length_setter s' Example.red_cube
       = (Return tt, Example.red_cube)) /\
  (forall c' cd',
     components (host Example.red_cube) !! c' = Some cd' ->
     comp_id cd' = "root" ->
     DirectVoxel.component_setter c' Example.red_cube
       = (Return tt, Example.red_cube)).
Proof.
  exact (setters_noop_on_equal_value Example.red_cube
    "Cube" 0%nat {| comp_id := "root"; comp_name := "Voxels" |}
    (1, 2, 3) 2%float (Some Example.red) "Prism-256"
    eq_refl eq_refl eq_refl eq_refl eq_refl eq_refl eq_refl).
Defined.

(** *** Appearance resolution *)

(** What resolution returned once, it returns again in every world whose
    voxel has the same appearance id and color and whose host has the same
    libraries and the design the resolution left. *)
Lemma resolution_stable (w : World) libs id col d r d' cs :
  resolution libs id col d r d' cs ->
  _appearance (self w) = Some id ->
  _color (self w) = Some col ->
  materialLibraries (host w) = libs ->
  activeProduct (host w) = d' ->
  exists cs',
    Voxel._get_appearance w =
      (Return r, {| self := self w; host := called cs' (host w) |}) /\
    forall source name, ~ In (Appearances_addByCopy source name) cs'.
Proof.
  intros Hres Hid Hcol Hlibs Hd.
  destruct (resolution_again _ _ _ _ _ _ _ Hres) as (cs' & Hres' & Hno).
  exists cs'. split; [|exact Hno].
  destruct w as [o h]. simpl in *. subst libs d'.
  erewrite resolution_run by eassumption.
  rewrite set_activeProduct_same. reflexivity.
Qed.

(** C3, as the claim states it, fails: when the design already has an
    appearance under the derived name, that appearance is returned as it
    is, whatever its albedo.  A red cube built in such a design: the
    constructor returns, the voxel's color is red, and the appearance that
    resolution returns, which is also the one the body has been given, is
    blue. *)
Lemma get_appearance_returns_other_albedo :
  fst (construct DirectCube 0%nat (1, 2, 3) 2%float (Some (255, 0, 0, 255))
         "Prism-256" "Cube" Example.edited_document) = Return tt /\
  _color (self Example.red_cube_edited) = Some (Some (255, 0, 0, 255)) /\
  exists w' a bd,
    Voxel._get_appearance Example.red_cube_edited
      = (Return (Some (DesignAppearance 0)), w') /\
    appearance_at (host w') (DesignAppearance 0) = Some a /\
    app_name a = "Prism-256__custom_r255g0b0o255" /\
    app_albedo a = Some (0, 0, 255, 255) /\
    app_albedo a <> Some (255, 0, 0, 255) /\
    body_at (host Example.red_cube_edited) 0%nat = Some bd /\
    body_appearance bd = Some (DesignAppearance 0).
Proof.
  split; [reflexivity|]. split; [reflexivity|].
  eexists. eexists. eexists.
  split; [vm_compute; reflexivity|].
  split; [vm_compute; reflexivity|].
  split; [reflexivity|]. split; [reflexivity|].
  split; [discriminate|].
  split; [vm_compute; reflexivity | reflexivity].
Qed.

(** C3, amended.  For a voxel with appearance id [id], in a host that has
    the material library:
    - without a color, resolution returns the library's appearance of that
      id and leaves the host as it was, the calls made apart;
    - with a color [c], when the design has an appearance under the name
      derived from [id] and the four channels of [c], resolution returns
      that appearance and leaves the host as it was, the calls made apart;
    - with a color [c], when the design has no such appearance and the
      library's appearance of id [id] has an albedo, resolution appends to
      the design a copy of it under the derived name with albedo [c] and
      returns the copy; the appearances the design had are untouched;
    - whenever resolution returns, resolving again returns the same
      appearance object, copies nothing and leaves the host as it was, the
      calls made apart. *)
Theorem get_appearance_lookup_or_create
    (w : World) (id : string) (col : option Color) (l : nat)
    (lib : MaterialLibrary) :
  _appearance (self w) = Some id ->
  _color (self w) = Some col ->
  libraries_itemById (materialLibraries (host w)) Voxel.material_library_id
    = Some l ->
  materialLibraries (host w) !! l = Some lib ->
  (col = None ->
   Voxel._get_appearance w =
     (Return (LibraryAppearance l <$>
                appearances_itemById (lib_appearances lib) id),
      {| self := self w; host := called (lookup_calls id) (host w) |})) /\
  (forall c d i,
     col = Some c ->
     activeProduct (host w) = Some d ->
     appearances_itemByName (appearances d)
       (id ++ "__custom_r" ++ str c.1.1.1 ++ "g" ++ str c.1.1.2
           ++ "b" ++ str c.1.2 ++ "o" ++ str c.2) = Some i ->
     Voxel._get_appearance w =
       (Return (Some (DesignAppearance i)),
        {| self := self w;
           host := called
             (lookup_calls id ++
                [Appearances_itemByName
                   (id ++ "__custom_r" ++ str c.1.1.1 ++ "g" ++ str c.1.1.2
                       ++ "b" ++ str c.1.2 ++ "o" ++ str c.2)])
             (host w) |})) /\
  (forall c d j base albedo,
     col = Some c ->
     activeProduct (host w) = Some d ->
     appearances_itemByName (appearances d)
       (id ++ "__custom_r" ++ str c.1.1.1 ++ "g" ++ str c.1.1.2
           ++ "b" ++ str c.1.2 ++ "o" ++ str c.2) = None ->
     appearances_itemById (lib_appearances lib) id = Some j ->
     lib_appearances lib !! j = Some base ->
     app_albedo base = Some albedo ->
     exists w',
       Voxel._get_appearance w =
         (Return (Some (DesignAppearance (List.length (appearances d)))),
          w') /\
       appearance_at (host w')
         (DesignAppearance (List.length (appearances d))) =
         Some {| app_id := app_id base;
                 app_name :=
                   id ++ "__custom_r" ++ str c.1.1.1 ++ "g" ++ str c.1.1.2
                      ++ "b" ++ str c.1.2 ++ "o" ++ str c.2;
                 app_albedo := Some c |} /\
       (forall i a, appearances d !! i = Some a ->
          appearance_at (host w') (DesignAppearance i) = Some a) /\
       self w' = self w /\ bodies (host w') = bodies (host w)) /\
  (forall r w1,
     Voxel._get_appearance w = (Return r, w1) ->
     exists cs,
       Voxel._get_appearance w1 =
         (Return r, {| self := self w1; host := called cs (host w1) |}) /\
       forall source name, ~ In (Appearances_addByCopy source name) cs).
Proof.
  intros Hid Hcol Hl Hlib. destruct w as [o h]. cbn [self host] in *.
  assert (Hname : forall c : Color,
    id ++ "__custom_r" ++ str c.1.1.1 ++ "g" ++ str c.1.1.2
       ++ "b" ++ str c.1.2 ++ "o" ++ str c.2
    = Voxel.colored_appearance_name id c).
  { intros [[[r g] b] a]. reflexivity. }
  split; [|split; [|split]].
  - intros ->. eapply get_appearance_base; eassumption.
  - intros c d i -> Hd Hi. rewrite (Hname c) in *.
    eapply get_appearance_existing; eassumption.
  - intros c d j base albedo -> Hd Hi Hj Hbase Halb. rewrite (Hname c) in *.
    eexists. split; [eapply get_appearance_new; eassumption|].
    cbn [self host called set_calls set_activeProduct activeProduct
         appearance_at mbind option_bind set_appearances appearances bodies].
    rewrite lookup_last. repeat split.
    intros i a Hia. apply lookup_not_last. exact Hia.
  - intros r w1 Hrun.
    destruct (run_resolution _ _ _ _ Hrun)
      as (id' & col' & d' & cs & Hid' & Hcol' & Hres & ->).
    eapply resolution_stable; try eassumption; reflexivity.
Qed.

Lemma get_appearance_lookup_or_create_witness :
  exists w',
    Voxel._get_appearance
      {| self := with_appearance "Prism-256"
                   (with_color (Some Example.red) (new_object DirectCube));
         host := Example.document |}
      = (Return (Some (DesignAppearance 0)), w') /\
    appearance_at (host w') (DesignAppearance 0) =
      Some {| app_id := "Prism-256";
              app_name := "Prism-256__custom_r255g0b0o255";
              app_albedo := Some (255, 0, 0, 255) |} /\
    exists cs,
      Voxel._get_appearance w' =
        (Return (Some (DesignAppearance 0)),
         {| self := self w'; host := called cs (host w') |}) /\
      forall source name, ~ In (Appearances_addByCopy source name) cs.
Proof.
  pose proof (get_appearance_lookup_or_create
    {| self := with_appearance "Prism-256"
                 (with_color (Some Example.red) (new_object DirectCube));
       host := Example.document |}
    "Prism-256" (Some Example.red) 0%nat Example.library
    eq_refl eq_refl eq_refl eq_refl) as (_ & _ & Hnew & Hagain).
  destruct (Hnew Example.red
    {| designType := DirectDesignType; appearances := [] |} 0%nat
    {| app_id := "Prism-256"; app_name := "Plastic - Matte (Yellow)";
       app_albedo := Some (255, 255, 0, 255) |} (255, 255, 0, 255)
    eq_refl eq_refl eq_refl eq_refl eq_refl eq_refl)
    as (w' & Hrun & Happ & _).
  exists w'. split; [exact Hrun|]. split; [exact Happ|].
  exact (Hagain _ _ Hrun).
Defined.

(** *** Bodies before and after *)

Lemma live_lt (h : Host) (b : BodyRef) (bd : BRepBody) :
  body_at h b = Some bd -> (b < List.length (bodies h))%nat.
Proof.
  unfold body_at. intros H.
  destruct (bodies h !! b) as [x|] eqn:E; [|discriminate].
  eapply lookup_lt_Some; eassumption.
Qed.

Lemma beyond_bodies (h : Host) : body_at h (List.length (bodies h)) = None.
Proof.
  unfold body_at. rewrite (proj2 (lookup_ge_None _ _)); [reflexivity | lia].
Qed.

Lemma new_body_at (h : Host) b cls c p s n r d' cs :
  body_at (with_new_body (without_body b h) cls c p s n r d' cs)
    (List.length (bodies h)) =
    Some {| body_parent := c; body_geometry := solid cls p s;
            body_appearance := r; body_name := Some n |}.
Proof.
  unfold body_at, with_new_body, without_body. cbn [bodies set_bodies].
  rewrite <- (length_insert (bodies h) b None), lookup_last. reflexivity.
Qed.

Lemma old_body_at (h : Host) b b' bd cls c p s n r d' cs :
  body_at h b = Some bd ->
  (b' < List.length (bodies h))%nat ->
  body_at (with_new_body (without_body b h) cls c p s n r d' cs) b' =
    if decide (b = b') then None else body_at h b'.
Proof.
  intros Hbd Hlt. rewrite <- (body_at_without_body b b' h).
  unfold body_at, with_new_body. cbn [bodies].
  rewrite lookup_app_l; [reflexivity|].
  unfold without_body. cbn [bodies set_bodies]. rewrite length_insert.
  exact Hlt.
Qed.

Lemma appearance_on_body_at (h : Host) b b' bd r d' cs :
  body_at h b = Some bd ->
  body_at (with_appearance_on b bd r d' cs h) b' =
    if decide (b = b') then Some (set_body_appearance r bd)
    else body_at h b'.
Proof.
  intros Hbd. pose proof (live_lt _ _ _ Hbd) as Hlt.
  unfold body_at, with_appearance_on. cbn [bodies set_bodies].
  destruct (decide (b = b')) as [<-|Hne].
  - rewrite list_lookup_insert_eq by exact Hlt. reflexivity.
  - rewrite list_lookup_insert_ne by exact Hne. reflexivity.
Qed.

(** *** The cosmetic setters *)

(** C5.  The [color] and [appearance] setters never assign the voxel's
    body: afterwards the voxel refers to the body it referred to before,
    whether the setter returned or raised.  When the new appearance can be
    resolved the setter returns, the host has as many bodies as before,
    every other body is as it was, and the voxel's body has kept its
    component, solid and name; if the value has changed, the body's
    appearance is the one that resolution gives for the voxel. *)
Theorem cosmetic_setters_keep_body
    (w : World) (b : BodyRef) (bd : BRepBody) (col : option Color)
    (id : string) :
  _body (self w) = Some (Some b) ->
  body_at (host w) b = Some bd ->
  _color (self w) = Some col ->
  _appearance (self w) = Some id ->
  (forall new_color,
     _body (self (snd (DirectVoxel.color_setter new_color w)))
       = Some (Some b)) /\
  (forall new_appearance,
     _body (self (snd (DirectVoxel.appearance_setter new_appearance w)))
       = Some (Some b)) /\
  (forall new_color,
     can_resolve (materialLibraries (host w)) (activeProduct (host w))
       id new_color = true ->
     exists w' bd',
       DirectVoxel.color_setter new_color w = (Return tt, w') /\
       body_at (host w') b = Some bd' /\
       body_parent bd' = body_parent bd /\
       body_geometry bd' = body_geometry bd /\
       body_name bd' = body_name bd /\
       List.length (bodies (host w')) = List.length (bodies (host w)) /\
       (forall b', b' <> b -> body_at (host w') b' = body_at (host w) b') /\
       (opt_color_eqb col new_color = false ->
        fst (Voxel._get_appearance w') = Return (body_appearance bd'))) /\
  (forall new_appearance,
     can_resolve (materialLibraries (host w)) (activeProduct (host w))
       new_appearance col = true ->
     exists w' bd',
       DirectVoxel.appearance_setter new_appearance w = (Return tt, w') /\
       body_at (host w') b = Some bd' /\
       body_parent bd' = body_parent bd /\
       body_geometry bd' = body_geometry bd /\
       body_name bd' = body_name bd /\
       List.length (bodies (host w')) = List.length (bodies (host w)) /\
       (forall b', b' <> b -> body_at (host w') b' = body_at (host w) b') /\
       (String.eqb new_appearance id = false ->
        fst (Voxel._get_appearance w') = Return (body_appearance bd'))).
Proof.
  intros Hb Hbd Hcol Hid.
  split; [|split; [|split]].
  - intros new. rewrite keeps_body_color_setter. exact Hb.
  - intros new. rewrite keeps_body_appearance_setter. exact Hb.
  - intros new Hcan.
    destruct (opt_color_eqb col new) eqn:Heq.
    + exists w, bd. split.
      { destruct w as [o h]. simpl in *.
        unfold DirectVoxel.color_setter. py_run. py_exec. rewrite Heq.
        reflexivity. }
      repeat split; try assumption; try reflexivity. discriminate.
    + destruct (can_resolve_resolution _ _ _ _ Hcan) as (r & d' & cs & Hres).
      destruct w as [o h]. cbn [self host] in *.
      eexists. exists (set_body_appearance r bd).
      split; [eapply color_setter_run; eassumption|].
      cbn [self host].
      split.
      { rewrite appearance_on_body_at by exact Hbd.
        destruct (decide (b = b)); congruence. }
      repeat split.
      * unfold with_appearance_on. cbn [bodies set_bodies].
        apply length_insert.
      * intros b' Hne. rewrite appearance_on_body_at by exact Hbd.
        destruct (decide (b = b')); congruence.
      * intros _.
        destruct (resolution_stable
          {| self := with_color new o;
             host := with_appearance_on b bd r d' cs h |}
          _ _ _ _ _ _ _ Hres) as (cs' & -> & _); try reflexivity.
        exact Hid.
  - intros new Hcan.
    destruct (String.eqb new id) eqn:Heq.
    + exists w, bd. split.
      { destruct w as [o h]. simpl in *.
        unfold DirectVoxel.appearance_setter. py_run. py_exec. rewrite Heq.
        reflexivity. }
      repeat split; try assumption; try reflexivity. discriminate.
    + destruct (can_resolve_resolution _ _ _ _ Hcan) as (r & d' & cs & Hres).
      destruct w as [o h]. cbn [self host] in *.
      eexists. exists (set_body_appearance r bd).
      split; [eapply appearance_setter_run; eassumption|].
      cbn [self host].
      split.
      { rewrite appearance_on_body_at by exact Hbd.
        destruct (decide (b = b)); congruence. }
      repeat split.
      * unfold with_appearance_on. cbn [bodies set_bodies].
        apply length_insert.
      * intros b' Hne. rewrite appearance_on_body_at by exact Hbd.
        destruct (decide (b = b')); congruence.
      * intros _.
        destruct (resolution_stable
          {| self := with_appearance new o;
             host := with_appearance_on b bd r d' cs h |}
          _ _ _ _ _ _ _ Hres) as (cs' & -> & _); try reflexivity.
        exact Hcol.
Qed.

Lemma cosmetic_setters_keep_body_witness :
  _body (self (snd (DirectVoxel.color_setter (Some (0, 255, 0, 255))
                      Example.red_cube))) = Some (Some 0%nat) /\
  _body (self (snd (DirectVoxel.appearance_setter "Prism-089"
                      Example.red_cube))) = Some (Some 0%nat) /\
  exists w' bd',
    DirectVoxel.color_setter None Example.red_cube = (Return tt, w') /\
    body_at (host w') 0%nat = Some bd' /\
    body_geometry bd' = Box (1, 2, 3) (1, 0, 0) (0, 1, 0) 2 2 2.
Proof.
  destruct (cosmetic_setters_keep_body Example.red_cube 0%nat
    {| body_parent := 0%nat;
       body_geometry := Box (1, 2, 3) (1, 0, 0) (0, 1, 0) 2 2 2;
       body_appearance := Some (DesignAppearance 0);
       body_name := Some "Cube" |}
    (Some Example.red) "Prism-256" eq_refl eq_refl eq_refl eq_refl)
    as (Hcolor & Happearance & Hin_place & _).
  split; [apply Hcolor|]. split; [apply Happearance|].
  destruct (Hin_place None eq_refl)
    as (w' & bd' & Hrun & Hbd' & _ & Hgeo & _).
  exists w', bd'. split; [exact Hrun|]. split; [exact Hbd'|]. exact Hgeo.
Defined.

(** *** What a body is built from *)

(** Appearance resolution only adds to the call log. *)
Lemma get_appearance_calls (w : World) :
  exists cs,
    calls (host (snd (Voxel._get_appearance w))) = (calls (host w) ++ cs)%list.
Proof.
  destruct w as [o h]. unfold Voxel._get_appearance. py_run.
  py_cases; eexists; rewrite <- ?app_assoc; reflexivity.
Qed.

(** Every run of [DirectCube._create_body] on a voxel with a center, a side
    length and a component that exists, however it ends. *)
Lemma cube_create_body_any (o : VoxelObj) (h : Host) c cd p s :
  _component o = Some c -> _center o = Some p -> _side_length o = Some s ->
  components h !! c = Some cd ->
  (exists rest,
     calls (host (snd (DirectCube._create_body {| self := o; host := h |})))
       = (calls h ++ box_request p s ++ rest)%list) /\
  (forall b w',
     DirectCube._create_body {| self := o; host := h |} = (Return b, w') ->
     b = List.length (bodies h) /\
     exists bd, body_at (host w') b = Some bd /\ body_parent bd = c /\
                body_geometry bd = Box p (1, 0, 0) (0, 1, 0) s s s).
Proof.
  intros Hc Hp Hs Hcd. unfold DirectCube._create_body, box_request.
  py_run. py_exec.
  destruct (kernel_accepts h (Box p (1, 0, 0) (0, 1, 0) s s s)); py_exec.
  2: { split; [|discriminate].
       exists []. rewrite <- ?app_assoc. reflexivity. }
  match goal with
  | |- context [Voxel._get_appearance ?W] =>
      destruct (get_appearance_calls W) as (cs & Hcs);
      destruct (get_appearance_frame W) as (Hself & _ & _ & Hbodies & _);
      destruct (Voxel._get_appearance W) as [[a|e] w1]
  end; cbn [fst snd self host bodies calls] in *.
  2: { split; [|discriminate].
       eexists. rewrite Hcs, <- ?app_assoc. reflexivity. }
  rewrite Hself, Hbodies. py_simpl. rewrite lookup_last. py_exec.
  rewrite insert_last.
  destruct (_name o) as [n|]; py_simpl.
  2: { split; [|discriminate].
       eexists. rewrite Hcs, <- ?app_assoc. reflexivity. }
  rewrite lookup_last. py_simpl. rewrite insert_last. split.
  - eexists. rewrite Hcs, <- ?app_assoc. reflexivity.
  - intros b w' [= <- <-]. split; [reflexivity|].
    eexists. cbn [host bodies]. rewrite lookup_last.
    split; [reflexivity|]. split; reflexivity.
Qed.

Lemma sphere_create_body_any (o : VoxelObj) (h : Host) c cd p s :
  _component o = Some c -> _center o = Some p -> _side_length o = Some s ->
  components h !! c = Some cd ->
  (exists rest,
     calls (host (snd (DirectSphere._create_body {| self := o; host := h |})))
       = (calls h ++ sphere_request p s ++ rest)%list) /\
  (forall b w',
     DirectSphere._create_body {| self := o; host := h |} = (Return b, w') ->
     b = List.length (bodies h) /\
     exists bd, body_at (host w') b = Some bd /\ body_parent bd = c /\
                body_geometry bd = Sphere p (s / 2)%float).
Proof.
  intros Hc Hp Hs Hcd. unfold DirectSphere._create_body, sphere_request.
  py_run. py_exec.
  destruct (kernel_accepts h (Sphere p (s / 2)%float)); py_exec.
  2: { split; [|discriminate].
       exists []. rewrite <- ?app_assoc. reflexivity. }
  match goal with
  | |- context [Voxel._get_appearance ?W] =>
      destruct (get_appearance_calls W) as (cs & Hcs);
      destruct (get_appearance_frame W) as (Hself & _ & _ & Hbodies & _);
      destruct (Voxel._get_appearance W) as [[a|e] w1]
  end; cbn [fst snd self host bodies calls] in *.
  2: { split; [|discriminate].
       eexists. rewrite Hcs, <- ?app_assoc. reflexivity. }
  rewrite Hself, Hbodies. py_simpl. rewrite lookup_last. py_exec.
  rewrite insert_last.
  destruct (_name o) as [n|]; py_simpl.
  2: { split; [|discriminate].
       eexists. rewrite Hcs, <- ?app_assoc. reflexivity. }
  rewrite lookup_last. py_simpl. rewrite insert_last. split.
  - eexists. rewrite Hcs, <- ?app_assoc. reflexivity.
  - intros b w' [= <- <-]. split; [reflexivity|].
    eexists. cbn [host bodies]. rewrite lookup_last.
    split; [reflexivity|]. split; reflexivity.
Qed.

(** C4.  On a voxel with center [p] and side length [s] in a component
    that exists, [DirectCube._create_body] asks the temporary B-Rep manager
    for the box with center [p], length direction (1, 0, 0), width
    direction (0, 1, 0) and length, width and height [s], and
    [DirectSphere._create_body] for the sphere with center [p] and radius
    [s / 2]; these are the first calls either makes.  A body that is
    returned is a new body of the component with that solid.  When the
    kernel accepts the solid and the voxel's appearance can be resolved, a
    body is returned. *)
Theorem create_body_asks_for_solid
    (w : World) (n : string) (c : CompRef) (cd : Component) (p : Point)
    (s : float) (col : option Color) (id : string) :
  _name (self w) = Some n ->
  _component (self w) = Some c ->
  _center (self w) = Some p ->
  _side_length (self w) = Some s ->
  _color (self w) = Some col ->
  _appearance (self w) = Some id ->
  components (host w) !! c = Some cd ->
  (* the cube *)
  ((exists rest,
      calls (host (snd (DirectCube._create_body w))) =
        (calls (host w) ++
         [TemporaryBRepManager_get; Point3D_create p;
          Vector3D_create (1, 0, 0); Vector3D_create (0, 1, 0);
          OrientedBoundingBox3D_create p (1, 0, 0) (0, 1, 0) s s s;
          TemporaryBRepManager_createBox (Box p (1, 0, 0) (0, 1, 0) s s s)]
         ++ rest)%list) /\
   (forall b w',
      DirectCube._create_body w = (Return b, w') ->
      body_at (host w) b = None /\
      exists bd, body_at (host w') b = Some bd /\ body_parent bd = c /\
                 body_geometry bd = Box p (1, 0, 0) (0, 1, 0) s s s) /\
   (kernel_accepts (host w) (Box p (1, 0, 0) (0, 1, 0) s s s) = true ->
    can_resolve (materialLibraries (host w)) (activeProduct (host w))
      id col = true ->
    exists b w', DirectCube._create_body w = (Return b, w'))) /\
  (* the sphere *)
  ((exists rest,
      calls (host (snd (DirectSphere._create_body w))) =
        (calls (host w) ++
         [TemporaryBRepManager_get; Point3D_create p;
          TemporaryBRepManager_createSphere p (s / 2)%float]
         ++ rest)%list) /\
   (forall b w',
      DirectSphere._create_body w = (Return b, w') ->
      body_at (host w) b = None /\
      exists bd, body_at (host w') b = Some bd /\ body_parent bd = c /\
                 body_geometry bd = Sphere p (s / 2)%float) /\
   (kernel_accepts (host w) (Sphere p (s / 2)%float) = true ->
    can_resolve (materialLibraries (host w)) (activeProduct (host w))
      id col = true ->
    exists b w', DirectSphere._create_body w = (Return b, w'))).
Proof.
  intros Hn Hc Hp Hs Hcol Hid Hcd. destruct w as [o h].
  cbn [self host] in *.
  destruct (cube_create_body_any o h c cd p s Hc Hp Hs Hcd)
    as (Hcube_calls & Hcube_body).
  destruct (sphere_create_body_any o h c cd p s Hc Hp Hs Hcd)
    as (Hsphere_calls & Hsphere_body).
  split; (split; [|split]).
  - exact Hcube_calls.
  - intros b w' Hrun. destruct (Hcube_body b w' Hrun) as (-> & Hbd).
    split; [apply beyond_bodies | exact Hbd].
  - intros Hk Hcan.
    destruct (can_resolve_resolution _ _ _ _ Hcan) as (r & d' & cs & Hres).
    do 2 eexists. eapply cube_create_body_run; eassumption.
  - exact Hsphere_calls.
  - intros b w' Hrun. destruct (Hsphere_body b w' Hrun) as (-> & Hbd).
    split; [apply beyond_bodies | exact Hbd].
  - intros Hk Hcan.
    destruct (can_resolve_resolution _ _ _ _ Hcan) as (r & d' & cs & Hres).
    do 2 eexists. eapply sphere_create_body_run; eassumption.
Qed.

Lemma create_body_asks_for_solid_witness :
  (exists rest,
     calls (host (snd (DirectCube._create_body Example.red_cube))) =
       (calls (host Example.red_cube) ++
        [TemporaryBRepManager_get; Point3D_create (1, 2, 3);
         Vector3D_create (1, 0, 0); Vector3D_create (0, 1, 0);
         OrientedBoundingBox3D_create (1, 2, 3) (1, 0, 0) (0, 1, 0) 2 2 2;
         TemporaryBRepManager_createBox
           (Box (1, 2, 3) (1, 0, 0) (0, 1, 0) 2 2 2)]
        ++ rest)%list) /\
  (exists rest,
     calls (host (snd (DirectSphere._create_body Example.red_cube))) =
       (calls (host Example.red_cube) ++
        [TemporaryBRepManager_get; Point3D_create (1, 2, 3);
         TemporaryBRepManager_createSphere (1, 2, 3) (2 / 2)%float]
        ++ rest)%list) /\
  exists b w', DirectCube._create_body Example.red_cube = (Return b, w').
Proof.
  destruct (create_body_asks_for_solid Example.red_cube
    "Cube" 0%nat {| comp_id := "root"; comp_name := "Voxels" |}
    (1, 2, 3) 2%float (Some Example.red) "Prism-256"
    eq_refl eq_refl eq_refl eq_refl eq_refl eq_refl eq_refl)
    as ((Hbox & _ & Hbuilt) & (Hsphere & _)).
  split; [exact Hbox|]. split; [exact Hsphere|].
  exact (Hbuilt eq_refl eq_refl).
Defined.

(** *** Rebuilding *)

(** The world every rebuild ends in. *)
Lemma rebuilt_world (o o' : VoxelObj) (h : Host) b bd c p s n r d' cs :
  body_at h b = Some bd ->
  class_of o' = class_of o ->
  rebuilt {| self := o; host := h |} b
    (Return tt,
     {| self := with_body (Some (List.length (bodies h))) o';
        host := with_new_body (without_body b h)
                  (class_of o) c p s n r d' cs |}).
Proof.
  intros Hbd Hcls. pose proof (live_lt _ _ _ Hbd) as Hlt.
  unfold rebuilt. do 4 eexists.
  split; [reflexivity|]. cbn [self host].
  split; [reflexivity|].
  split; [lia|].
  split; [apply beyond_bodies|].
  split.
  { rewrite (old_body_at _ _ _ _ _ _ _ _ _ _ _ _ Hbd Hlt).
    destruct (decide (b = b)); congruence. }
  split; [apply new_body_at|].
  split.
  { unfold with_new_body, without_body, called.
    cbn [calls set_bodies set_calls]. rewrite <- app_assoc. reflexivity. }
  rewrite !shape_run. cbn [fst self class_of with_body]. rewrite Hcls.
  reflexivity.
Qed.

Lemma rebuilt_world_cosmetics (o' : VoxelObj) (h : Host)
    b cls c p s n col id r d' cs :
  _name o' = Some n -> _color o' = Some col -> _appearance o' = Some id ->
  resolution (materialLibraries h) id col (activeProduct h) r d' cs ->
  rebuilt_with_cosmetics n col id
    (Return tt,
     {| self := with_body (Some (List.length (bodies h))) o';
        host := with_new_body (without_body b h) cls c p s n r d' cs |}).
Proof.
  intros Hn Hcol Hid Hres. unfold rebuilt_with_cosmetics. do 3 eexists.
  split; [reflexivity|]. cbn [self host].
  split; [reflexivity|].
  split; [apply new_body_at|].
  split; [reflexivity|].
  split.
  { destruct (resolution_stable
      {| self := with_body (Some (List.length (bodies h))) o';
         host := with_new_body (without_body b h) cls c p s n r d' cs |}
      _ _ _ _ _ _ _ Hres) as (cs' & -> & _); try reflexivity; assumption. }
  repeat split; assumption.
Qed.

(** C6.  On a voxel with a live body, in a host where its component exists
    and its appearance can be resolved: assigning a center, a side length
    or a component other than the stored one (for the component: one with
    another id), whose solid the kernel accepts, replaces the body by a new
    one.  The old body is deleted, the voxel refers to a body in a new
    slot of the host, and the shape tag is unchanged. *)
Theorem geometry_setters_rebuild
    (w : World) (b : BodyRef) (bd : BRepBody) (n : string) (c : CompRef)
    (cd : Component) (p : Point) (s : float) (col : option Color)
    (id : string) :
  _body (self w) = Some (Some b) ->
  body_at (host w) b = Some bd ->
  _name (self w) = Some n ->
  _component (self w) = Some c ->
  _center (self w) = Some p ->
  _side_length (self w) = Some s ->
  _color (self w) = Some col ->
  _appearance (self w) = Some id ->
  components (host w) !! c = Some cd ->
  can_resolve (materialLibraries (host w)) (activeProduct (host w)) id col
    = true ->
  (forall new_center,
     point_eqb p new_center = false ->
     kernel_accepts (host w) (solid (class_of (self w)) new_center s)
       = true ->
     rebuilt w b (DirectVoxel.center_setter new_center w)) /\
  (forall new_side_length,
     PrimFloat.eqb new_side_length s = false ->
     kernel_accepts (host w) (solid (class_of (self w)) p new_side_length)
       = true ->
     rebuilt w b (DirectVoxel.side_length_setter new_side_length w)) /\
  (forall new_component cd',
     components (host w) !! new_component = Some cd' ->
     String.eqb (comp_id cd') (comp_id cd) = false ->
     kernel_accepts (host w) (solid (class_of (self w)) p s) = true ->
     rebuilt w b (DirectVoxel.component_setter new_component w)).
Proof.
  intros Hb Hbd Hn Hc Hp Hs Hcol Hid Hcd Hcan.
  destruct (can_resolve_resolution _ _ _ _ Hcan) as (r & d' & cs & Hres).
  destruct w as [o h]. cbn [self host] in *.
  split; [|split].
  - intros new Hne Hk.
    erewrite center_setter_run by eassumption.
    apply rebuilt_world with (bd := bd); [assumption | reflexivity].
  - intros new Hne Hk.
    erewrite side_length_setter_run by eassumption.
    apply rebuilt_world with (bd := bd); [assumption | reflexivity].
  - intros new cd' Hcd' Hne Hk.
    erewrite component_setter_run by eassumption.
    apply rebuilt_world with (bd := bd); [assumption | reflexivity].
Qed.

(** C10.  On a voxel with a live body, in a host where its component
    exists, the kernel accepts its solid and its appearance can be
    resolved: [recreate_body] returns, and the body the voxel then refers
    to has the voxel's name and the appearance that resolution gives for
    the voxel; the voxel's name, color and appearance id are what they
    were.  The same holds when the rebuild is started by the [center],
    [side_length] or [component] setter. *)
Theorem rebuilt_body_carries_cosmetics
    (w : World) (b : BodyRef) (bd : BRepBody) (n : string) (c : CompRef)
    (cd : Component) (p : Point) (s : float) (col : option Color)
    (id : string) :
  _body (self w) = Some (Some b) ->
  body_at (host w) b = Some bd ->
  _name (self w) = Some n ->
  _component (self w) = Some c ->
  _center (self w) = Some p ->
  _side_length (self w) = Some s ->
  _color (self w) = Some col ->
  _appearance (self w) = Some id ->
  components (host w) !! c = Some cd ->
  can_resolve (materialLibraries (host w)) (activeProduct (host w)) id col
    = true ->
  (kernel_accepts (host w) (solid (class_of (self w)) p s) = true ->
   rebuilt_with_cosmetics n col id (Voxel.recreate_body w)) /\
  (forall new_center,
     point_eqb p new_center = false ->
     kernel_accepts (host w) (solid (class_of (self w)) new_center s)
       = true ->
     rebuilt_with_cosmetics n col id
       (DirectVoxel.center_setter new_center w)) /\
  (forall new_side_length,
     PrimFloat.eqb new_side_length s = false ->
     kernel_accepts (host w) (solid (class_of (self w)) p new_side_length)
       = true ->
     rebuilt_with_cosmetics n col id
       (DirectVoxel.side_length_setter new_side_length w)) /\
  (forall new_component cd',
     components (host w) !! new_component = Some cd' ->
     String.eqb (comp_id cd') (comp_id cd) = false ->
     kernel_accepts (host w) (solid (class_of (self w)) p s) = true ->
     rebuilt_with_cosmetics n col id
       (DirectVoxel.component_setter new_component w)).
Proof.
  intros Hb Hbd Hn Hc Hp Hs Hcol Hid Hcd Hcan.
  destruct (can_resolve_resolution _ _ _ _ Hcan) as (r & d' & cs & Hres).
  destruct w as [o h]. cbn [self host] in *.
  split; [|split; [|split]].
  - intros Hk. erewrite recreate_body_run by eassumption.
    eapply rebuilt_world_cosmetics; eassumption.
  - intros new Hne Hk. erewrite center_setter_run by eassumption.
    eapply rebuilt_world_cosmetics; try eassumption.
  - intros new Hne Hk. erewrite side_length_setter_run by eassumption.
    eapply rebuilt_world_cosmetics; try eassumption.
  - intros new cd' Hcd' Hne Hk. erewrite component_setter_run by eassumption.
    eapply rebuilt_world_cosmetics; try eassumption.
Qed.

Lemma geometry_setters_rebuild_witness :
  rebuilt Example.red_cube 0%nat
    (DirectVoxel.center_setter (1, 2, 4) Example.red_cube) /\
  rebuilt Example.red_cube 0%nat
    (DirectVoxel.side_length_setter 3%float Example.red_cube) /\
  rebuilt Example.red_cube 0%nat
    (DirectVoxel.component_setter 1%nat Example.red_cube).
Proof.
  destruct (geometry_setters_rebuild Example.red_cube 0%nat
    {| body_parent := 0%nat;
       body_geometry := Box (1, 2, 3) (1, 0, 0) (0, 1, 0) 2 2 2;
       body_appearance := Some (DesignAppearance 0);
       body_name := Some "Cube" |}
    "Cube" 0%nat {| comp_id := "root"; comp_name := "Voxels" |}
    (1, 2, 3) 2%float (Some Example.red) "Prism-256"
    eq_refl eq_refl eq_refl eq_refl eq_refl eq_refl eq_refl eq_refl
    eq_refl eq_refl) as (Hcenter & Hside & Hcomponent).
  split; [exact (Hcenter (1, 2, 4) eq_refl eq_refl)|].
  split; [exact (Hside 3%float eq_refl eq_refl)|].
  exact (Hcomponent 1%nat {| comp_id := "c1"; comp_name := "Layer 1" |}
           eq_refl eq_refl eq_refl).
Defined.

Lemma rebuilt_body_carries_cosmetics_witness :
  rebuilt_with_cosmetics "Cube" (Some Example.red) "Prism-256"
    (Voxel.recreate_body Example.red_cube) /\
  rebuilt_with_cosmetics "Sphere" None "Prism-256"
    (DirectVoxel.side_length_setter 5%float Example.plain_sphere).
Proof.
  split.
  - exact (proj1 (rebuilt_body_carries_cosmetics Example.red_cube 0%nat
      {| body_parent := 0%nat;
         body_geometry := Box (1, 2, 3) (1, 0, 0) (0, 1, 0) 2 2 2;
         body_appearance := Some (DesignAppearance 0);
         body_name := Some "Cube" |}
      "Cube" 0%nat {| comp_id := "root"; comp_name := "Voxels" |}
      (1, 2, 3) 2%float (Some Example.red) "Prism-256"
      eq_refl eq_refl eq_refl eq_refl eq_refl eq_refl eq_refl eq_refl
      eq_refl eq_refl) eq_refl).
  - exact (proj1 (proj2 (proj2
      (rebuilt_body_carries_cosmetics Example.plain_sphere 0%nat
        {| body_parent := 0%nat;
           body_geometry := Sphere (0, 0, 0) (3 / 2)%float;
           body_appearance := Some (LibraryAppearance 0 0);
           body_name := Some "Sphere" |}
        "Sphere" 0%nat {| comp_id := "root"; comp_name := "Voxels" |}
        (0, 0, 0) 3%float None "Prism-256"
        eq_refl eq_refl eq_refl eq_refl eq_refl eq_refl eq_refl eq_refl
        eq_refl eq_refl))) 5%float eq_refl eq_refl).
Defined.
